(** * Task orchestration of the trading bot: session clock, snapshot
      refresh, news watcher and job dispatch.

    Shallow embedding of [main.py] (and of [check_market_open] from
    [enhanced_main.py]).  Python code with side effects is written in a
    state-and-exception monad over a [World] that holds the files, the
    alerts sent, the log and the event loop's queue of created tasks.
    Functions imported from [modules.*], the network and the clock are
    collaborators: they are fields of an environment [Env] and every
    theorem holds for all of them unless it says otherwise. *)

From Stdlib Require Import ZArith QArith Lqa Lia List Sorted Ascii String.
From stdpp Require Import base gmap strings list pretty.

Local Open Scope string_scope.
Local Open Scope Z_scope.

(** ** Exceptions and results *)

(** A raised Python exception of class [Exception] (what [except
    Exception as e] catches); [exn_text] is [str(e)]. *)
Inductive exn : Type :=
  | Exception (text : string).

Definition exn_text (e : exn) : string :=
  match e with Exception t => t end.

Inductive result (A : Type) : Type :=
  | Ok (a : A)
  | Raise (e : exn).
Arguments Ok {A} a.
Arguments Raise {A} e.

(** ** Wall-clock readings *)

(** The fields of a [datetime] the code reads.  [weekday] follows
    Python: Monday is 0 and Sunday is 6. *)
Record DateTime : Type := mkDateTime {
  weekday : Z;
  hour : Z;
  minute : Z;
  second : Z
}.

Definition wf_datetime (t : DateTime) : Prop :=
  0 <= weekday t < 7 /\ 0 <= hour t < 24 /\
  0 <= minute t < 60 /\ 0 <= second t < 60.

(** Python compares tuples lexicographically. *)
Definition tuple_le (a b : Z * Z) : bool :=
  (fst a <? fst b) || ((fst a =? fst b) && (snd a <=? snd b)).

Definition tuple_lt (a b : Z * Z) : bool :=
  (fst a <? fst b) || ((fst a =? fst b) && (snd a <? snd b)).

(** [is_market_open] of main.py.  [ny] is the outcome of
    [pytz.timezone("America/New_York")] followed by [datetime.now(ny_tz)]:
    the New York local time, or the exception raised while resolving it.
    The function has no [try]: a raised exception leaves it. *)
Definition is_market_open (ny : result DateTime) : result bool :=
  match ny with
  | Raise e => Raise e
  | Ok ny_time =>
      if 5 <=? weekday ny_time then Ok false
      else
        let market_open := (9, 30) in
        let market_close := (16, 0) in
        let current_time := (hour ny_time, minute ny_time) in
        Ok (tuple_le market_open current_time
            && tuple_lt current_time market_close)
  end.

(** [check_market_open] of enhanced_main.py.  [host] is the outcome of
    [datetime.now()], the naive local time of the host.  The body is
    inside [try]; the handler logs through [logger.error] and returns
    [True].  The result pairs the returned value with the lines logged. *)
Definition check_market_open (host : result DateTime)
  : result bool * list string :=
  match host with
  | Ok now =>
      if 5 <=? weekday now then (Ok false, [])
      else if (9 <=? hour now) && (hour now <=? 16) then (Ok true, [])
      else (Ok false, [])
  | Raise e => (Ok true, ["Market check error: " ++ exn_text e])
  end.

(** Seconds since local midnight. *)
Definition time_of_day (t : DateTime) : Z :=
  hour t * 3600 + minute t * 60 + second t.

(** The session of the specification: a weekday Monday..Friday and a
    local time of day in [09:30, 16:00). *)
Definition in_session (t : DateTime) : Prop :=
  0 <= weekday t <= 4 /\
  9 * 3600 + 30 * 60 <= time_of_day t < 16 * 3600.

(** ** Data on disk and on the wire *)

Local Set Warnings "-register-all".

(** A parsed JSON value, as [response.json()] returns it.  The code
    never looks into a number; numbers are kept as integers. *)
Inductive json : Type :=
  | JNull
  | JBool (b : bool)
  | JNum (n : Z)
  | JStr (s : string)
  | JArr (items : list json)
  | JObj (fields : list (string * json)).

(** Modelled from the spec: the records returned by
    [fetch_stocks_from_tradingview] and stored in the snapshot files come
    from [modules.tv_data], which is not among the sources; the snapshot
    file format is a JSON array of objects, each with at least a string
    ["symbol"] and further attributes. *)
Record stock : Type := mkStock {
  symbol : string;
  attrs : list (string * json)
}.

(** What a file holds: a JSON array of stock records (what [json.dump]
    writes and [json.load] reads back), or any other text, on which
    reading the list of symbols raises. *)
Inductive content : Type :=
  | StockList (l : list stock)
  | RawText (s : string).

(** Coroutines of main.py that are handed to [asyncio.create_task]. *)
Inductive coro : Type :=
  | Coro_scheduled_tasks
  | Coro_daily_model_training
  | Coro_update_symbols
  | Coro_update_market_data
  | Coro_update_pump_stocks
  | Coro_update_high_movement_stocks
  | Coro_track_targets
  | Coro_send_daily_report_task
  | Coro_clean_trade_history_task
  | Coro_send_pnl_summary
  | Coro_close_all_positions_before_market_close.

(** ** The world and the effect monad *)

Record World : Type := mkWorld {
  fs : gmap string content;   (* files by path *)
  alerts : list string;       (* Telegram messages sent, oldest first *)
  logs : list string;         (* lines written by [log], oldest first *)
  tasks : list coro           (* tasks created on the event loop, not yet run *)
}.

Definition set_fs (f : gmap string content -> gmap string content)
    (w : World) : World :=
  mkWorld (f (fs w)) (alerts w) (logs w) (tasks w).

Definition add_alert (m : string) (w : World) : World :=
  mkWorld (fs w) (alerts w ++ [m]) (logs w) (tasks w).

Definition add_log (m : string) (w : World) : World :=
  mkWorld (fs w) (alerts w) (logs w ++ [m]) (tasks w).

Definition add_task (c : coro) (w : World) : World :=
  mkWorld (fs w) (alerts w) (logs w) (tasks w ++ [c]).

(** A Python call: from a world to a returned value or a raised
    exception, and the world it leaves behind. *)
Definition M (A : Type) : Type := World -> result A * World.

Definition ret {A : Type} (a : A) : M A := fun w => (Ok a, w).

Definition raise {A : Type} (e : exn) : M A := fun w => (Raise e, w).

Definition bind {A B : Type} (m : M A) (k : A -> M B) : M B :=
  fun w =>
    match m w with
    | (Ok a, w') => k a w'
    | (Raise e, w') => (Raise e, w')
    end.

(** [try: body / except Exception as e: handler e]. *)
Definition try_except {A : Type} (body : M A) (handler : exn -> M A) : M A :=
  fun w =>
    match body w with
    | (Ok a, w') => (Ok a, w')
    | (Raise e, w') => handler e w'
    end.

(** Lift the outcome of a call that does not touch the world. *)
Definition lift {A : Type} (r : result A) : M A := fun w => (r, w).

Notation "x <- m ;; k" := (bind m (fun x => k))
  (at level 100, m at next level, k at level 200, right associativity).
Notation "m ;; k" := (bind m (fun _ => k))
  (at level 100, k at level 200, right associativity).

(** [log] of main.py: [print] and [logging.info]. *)
Definition log (msg : string) : M unit := fun w => (Ok tt, add_log msg w).

(** [os.path.exists]. *)
Definition path_exists (p : string) : M bool :=
  fun w => (Ok (bool_decide (is_Some (fs w !! p))), w).

(** [shutil.copy(src, dst)]: [dst] is created or overwritten with the
    content of [src]; a missing [src] raises. *)
Definition shutil_copy (src dst : string) : M unit :=
  fun w =>
    match fs w !! src with
    | Some c => (Ok tt, set_fs (fun m => <[dst := c]> m) w)
    | None => (Raise (Exception ("No such file or directory: " ++ src)), w)
    end.

(** [asyncio.create_task(c)]: the coroutine is wrapped in a task that the
    event loop will run later; the call returns at once and nothing of
    the coroutine's body has run. *)
Definition create_task (c : coro) : M unit :=
  fun w => (Ok tt, add_task c w).

(** ** Python operations on JSON values and strings *)

(** Lower-casing of the ASCII letters, byte by byte.  On a text made of
    ASCII characters only this is what Python's [str.lower] does; on
    other text [str.lower] follows the Unicode tables (it maps the Kelvin
    sign to [k], for one), and is taken from the environment below. *)
Definition lower_ascii (c : ascii) : ascii :=
  let n := nat_of_ascii c in
  if ((65 <=? n) && (n <=? 90))%nat then ascii_of_nat (n + 32) else c.

Fixpoint ascii_lower (s : string) : string :=
  match s with
  | EmptyString => EmptyString
  | String c rest => String (lower_ascii c) (ascii_lower rest)
  end.

(** [needle in hay] on strings. *)
Fixpoint contains (needle hay : string) : bool :=
  String.prefix needle hay
  || match hay with
     | EmptyString => false
     | String _ rest => contains needle rest
     end.

Fixpoint items_lookup (key : string) (fields : list (string * json))
  : option json :=
  match fields with
  | [] => None
  | (k, v) :: rest => if String.eqb k key then Some v else items_lookup key rest
  end.

(** [d.get(key, default)]; [fields] are the items of the dict, whose keys
    are distinct.  Only dicts have a [get]. *)
Definition dict_get (d : json) (key : string) (default : json) : result json :=
  match d with
  | JObj fields =>
      Ok (match items_lookup key fields with Some v => v | None => default end)
  | _ => Raise (Exception "object has no attribute 'get'")
  end.

(** The items a [for] loop visits: the elements of a list, the keys of a
    dict, the characters of a string; anything else is not iterable. *)
Definition py_iter (j : json) : result (list json) :=
  match j with
  | JArr items => Ok items
  | JObj fields => Ok (map (fun kv => JStr (fst kv)) fields)
  | JStr s => Ok (map (fun c => JStr (String c EmptyString)) (list_ascii_of_string s))
  | _ => Raise (Exception "object is not iterable")
  end.

(** [t.lower()]; only strings have it.  [lower] is [str.lower]. *)
Definition py_lower (lower : string -> string) (t : json) : result string :=
  match t with
  | JStr s => Ok (lower s)
  | _ => Raise (Exception "object has no attribute 'lower'")
  end.

(** [l.iloc[i]] on a column of [l]: a negative [i] counts from the end,
    and a position outside the column raises. *)
Definition iloc (l : list Q) (i : Z) : result Q :=
  let n := Z.of_nat (length l) in
  let k := if i <? 0 then n + i else i in
  if (0 <=? k) && (k <? n) then
    match l !! Z.to_nat k with
    | Some x => Ok x
    | None => Raise (Exception "single positional indexer is out-of-bounds")
    end
  else Raise (Exception "single positional indexer is out-of-bounds").

(** [a < b] on prices and percentages.  The closes are floats in the
    program; they are taken here as the exact rationals they denote. *)
Definition Qltb (a b : Q) : bool :=
  (Qnum a * Zpos (Qden b) <? Qnum b * Zpos (Qden a))%Z.

(** What [requests.get] gives back: the status code and the outcome of
    [response.json()] (a malformed body raises there). *)
Record response : Type := mkResponse {
  status_code : Z;
  response_json : result json
}.

(** ** Collaborators *)

(** Everything main.py imports and calls as a black box, the API token
    it is configured with (no property depends on its value) and the
    interpreter's Unicode lower-casing of strings.  A collaborator of
    type [M _] may change the world in any way and may raise. *)
Record Env : Type := mkEnv {
  NEWS_API_KEY : string;                         (* the token set at line 40 *)
  str_lower : string -> string;                  (* Python's [str.lower] *)
  ny_now : result DateTime;                      (* New York clock reading *)
  requests_get : string -> result response;      (* by URL; may raise *)
  spy_history : result (list Q);                 (* closes of SPY, oldest first *)
  log_action : string -> string -> M unit;
  fetch_stocks_from_tradingview : M (list stock);
  send_telegram_message : string -> M unit;
  analyze_market : M unit;
  compare_stock_lists_and_alert : string -> string -> string -> M unit;
  check_cross_list_movements : M unit;
  fetch_all_us_symbols : M (list string);
  save_symbols_to_csv : list string -> M unit;
  detect_pump_stocks : M unit;
  analyze_high_movement_stocks : M unit;
  check_targets : M unit;
  generate_report_summary : M unit;
  clean_old_trades : M unit;
  train_model_daily : M unit;
  scheduled_tasks : M unit;
  send_pnl_summary : M unit;
  close_all_positions_before_market_close : M unit
}.

Definition POSITIVE_NEWS_FILE : string := "data/positive_watchlist.json".

(** [json.load] of the file at [p], read as a list of stock records. *)
Definition json_load (p : string) : M (list stock) :=
  fun w =>
    match fs w !! p with
    | Some (StockList l) => (Ok l, w)
    | Some (RawText _) => (Raise (Exception "Expecting value"), w)
    | None => (Raise (Exception ("No such file or directory: " ++ p)), w)
    end.

(** [open(p, "w")] and [json.dump(l, f)]: the file is created or
    replaced. *)
Definition json_dump (l : list stock) (p : string) : M unit :=
  fun w => (Ok tt, set_fs (fun m => <[p := StockList l]> m) w).

(** ** main.py *)

Section Main.

Variable env : Env.

(** [is_market_weak]: a [return] inside [try] is [Some]; leaving the
    [try] statement without one reaches the final [return False]. *)
Definition is_market_weak : M bool :=
  r <- try_except
         (hist <- lift (spy_history env) ;;
          if (2 <=? length hist)%nat then
            prev_close <- lift (iloc hist (-2)) ;;
            today_close <- lift (iloc hist (-1)) ;;
            let change_pct :=
              ((today_close - prev_close) / prev_close * inject_Z 100)%Q in
            ret (Some (Qltb change_pct (inject_Z (-1))))
          else ret None)
         (fun e =>
            log_action env ("❌ خطأ في تحليل SPY: " ++ exn_text e) "error" ;;
            ret None) ;;
  match r with
  | Some b => ret b
  | None => ret false
  end.

(** The [for article in articles] loop of [fetch_news_sentiment]:
    [Some s] when an iteration returns [s], [None] when the loop ends. *)
Fixpoint scan_articles (articles : list json) : result (option string) :=
  match articles with
  | [] => Ok None
  | article :: rest =>
      match dict_get article "title" (JStr "") with
      | Raise e => Raise e
      | Ok t =>
          match py_lower (str_lower env) t with
          | Raise e => Raise e
          | Ok title =>
              if contains "bankruptcy" title || contains "dilution" title
              then Ok (Some "negative")
              else if contains "record revenue" title
                      || contains "strong earnings" title
              then Ok (Some "positive")
              else scan_articles rest
          end
      end
  end.

Definition news_url (symbol : string) : string :=
  "https://api.marketaux.com/v1/news/all?symbols=" ++ symbol
  ++ "&filter_entities=true&language=en&api_token=" ++ NEWS_API_KEY env.

Definition fetch_news_sentiment (symbol : string) : M string :=
  try_except
    (let url := news_url symbol in
     response <- lift (requests_get env url) ;;
     if status_code response =? 200 then
       data <- lift (response_json response) ;;
       articles <- lift (dict_get data "data" (JArr [])) ;;
       items <- lift (py_iter articles) ;;
       found <- lift (scan_articles items) ;;
       match found with
       | Some sentiment => ret sentiment
       | None => ret "neutral"
       end
     else ret "neutral")
    (fun e =>
       log ("❌ خطأ في تحليل الأخبار لـ " ++ symbol ++ ": " ++ exn_text e) ;;
       ret "neutral").

(** [symbol not in old_symbols]. *)
Definition not_in (symbol : string) (old_symbols : list string) : bool :=
  negb (existsb (String.eqb symbol) old_symbols).

(** The [for stock in stocks] loop of [watch_positive_news_stocks];
    [positive_stocks] is the list built so far. *)
Fixpoint scan_stocks (old_symbols : list string) (stocks : list stock)
    (positive_stocks : list stock) : M (list stock) :=
  match stocks with
  | [] => ret positive_stocks
  | stock :: rest =>
      let symbol := symbol stock in
      sentiment <- fetch_news_sentiment symbol ;;
      if String.eqb sentiment "positive" && not_in symbol old_symbols then
        let message :=
          "📢 سهم جديد بأخبار إيجابية:" ++ String "010" "📈 " ++ symbol
          ++ String "010" "✅ تم رصده في السوق" in
        send_telegram_message env message ;;
        scan_stocks old_symbols rest (positive_stocks ++ [stock])
      else scan_stocks old_symbols rest positive_stocks
  end.

Definition watch_positive_news_stocks : M unit :=
  log "🟢 فحص الأسهم ذات الأخبار الإيجابية..." ;;
  try_except
    (stocks <- fetch_stocks_from_tradingview env ;;
     ex <- path_exists POSITIVE_NEWS_FILE ;;
     old_symbols <-
       (if ex then
          old_list <- json_load POSITIVE_NEWS_FILE ;;
          ret (map symbol old_list)
        else ret []) ;;
     positive_stocks <- scan_stocks old_symbols stocks [] ;;
     match positive_stocks with
     | _ :: _ =>
         (* os.makedirs(..., exist_ok=True): directories are not modelled *)
         json_dump positive_stocks POSITIVE_NEWS_FILE ;;
         log ("✅ تم حفظ " ++ pretty (length positive_stocks)
              ++ " سهم في قائمة الأخبار الإيجابية.")
     | [] => log "⚠️ لا توجد أسهم إيجابية حالياً."
     end)
    (fun e => log ("❌ فشل في مراقبة الأخبار الإيجابية: " ++ exn_text e)).

(** [if os.path.exists(name): shutil.copy(name, name_old)]. *)
Definition backup (name name_old : string) : M unit :=
  ex <- path_exists name ;;
  if ex then shutil_copy name name_old else ret tt.

Definition update_market_data : M unit :=
  open <- lift (is_market_open (ny_now env)) ;;
  if negb open then log "⏸️ السوق مغلق - إلغاء التحديث"
  else
    log "📊 تحليل وتحديث السوق..." ;;
    try_except
      (backup "data/top_stocks.json" "data/top_stocks_old.json" ;;
       backup "data/pump_stocks.json" "data/pump_stocks_old.json" ;;
       backup "data/high_movement_stocks.json"
              "data/high_movement_stocks_old.json" ;;
       analyze_market env ;;
       log "✅ تم تحليل السوق بنجاح." ;;
       compare_stock_lists_and_alert env "data/top_stocks_old.json"
         "data/top_stocks.json" "🌀 سهم قوي جديد:" ;;
       check_cross_list_movements env)
      (fun e => log ("❌ فشل تحليل السوق: " ++ exn_text e)).

Definition update_symbols : M unit :=
  log "🔁 تحديث رموز السوق..." ;;
  try_except
    (symbols <- fetch_all_us_symbols env ;;
     match symbols with
     | _ :: _ =>
         save_symbols_to_csv env symbols ;;
         log ("✅ تم تحديث " ++ pretty (length symbols) ++ " رمز سوق.")
     | [] => ret tt
     end)
    (fun e => log ("❌ فشل تحديث الرموز: " ++ exn_text e)).

Definition update_pump_stocks : M unit :=
  open <- lift (is_market_open (ny_now env)) ;;
  if negb open then ret tt
  else
    log "💣 تحليل الانفجارات السعرية..." ;;
    try_except
      (backup "data/pump_stocks.json" "data/pump_stocks_old.json" ;;
       detect_pump_stocks env ;;
       log "✅ تم تحديث أسهم الانفجار." ;;
       compare_stock_lists_and_alert env "data/pump_stocks_old.json"
         "data/pump_stocks.json" "💥 سهم انفجاري جديد:")
      (fun e => log ("❌ فشل تحليل الانفجارات: " ++ exn_text e)).

Definition update_high_movement_stocks : M unit :=
  open <- lift (is_market_open (ny_now env)) ;;
  if negb open then ret tt
  else
    log "🚀 تحليل الأسهم ذات الحركة العالية..." ;;
    try_except
      (backup "data/high_movement_stocks.json"
              "data/high_movement_stocks_old.json" ;;
       analyze_high_movement_stocks env ;;
       log "✅ تم تحديث أسهم الحركة العالية." ;;
       compare_stock_lists_and_alert env "data/high_movement_stocks_old.json"
         "data/high_movement_stocks.json" "🚀 سهم نشط جديد:")
      (fun e => log ("❌ فشل تحليل الأسهم ذات الحركة العالية: " ++ exn_text e)).

Definition track_targets : M unit :=
  log "🎯 متابعة لحظية للأسهم..." ;;
  try_except
    (check_targets env)
    (fun e => log ("❌ خطأ في متابعة الأهداف: " ++ exn_text e)).

Definition send_daily_report_task : M unit :=
  open <- lift (is_market_open (ny_now env)) ;;
  if open then log "⏸️ السوق مفتوح - تأجيل إرسال التقرير"
  else generate_report_summary env.

Definition clean_trade_history_task : M unit :=
  clean_old_trades env.

Definition daily_model_training : M unit :=
  log "🔁 تدريب يومي للنموذج الذكي..." ;;
  try_except
    (train_model_daily env ;;
     log "✅ تم تدريب النموذج اليومي بنجاح.")
    (fun e => log ("❌ فشل تدريب النموذج: " ++ exn_text e)).

End Main.

(** ** The job table and the dispatch of one job *)

(** [every().day.at("HH:MM")] and [every(n).minutes]. *)
Inductive cadence : Type :=
  | Every_day_at (hh mm : Z)
  | Every_minutes (n : Z).

(** What is passed to [.do(...)] in [main]. *)
Inductive job_func : Type :=
  | Lambda_create_task (c : coro)
      (* lambda: asyncio.create_task(c(...)) *)
  | Func_watch_positive_news_stocks
      (* the function object itself *)
  | Lambda_asyncio_run_verify_active_stop_orders.
      (* lambda: asyncio.run(verify_active_stop_orders()) *)

Record job : Type := mkJob {
  job_cadence : cadence;
  job_do : job_func
}.

(** The registrations of [main], lines 235 to 246, in order. *)
Definition registered_jobs : list job :=
  [ mkJob (Every_day_at 0 0) (Lambda_create_task Coro_daily_model_training);
    mkJob (Every_day_at 3 0) (Lambda_create_task Coro_update_symbols);
    mkJob (Every_minutes 5) (Lambda_create_task Coro_update_market_data);
    mkJob (Every_minutes 5) (Lambda_create_task Coro_update_pump_stocks);
    mkJob (Every_minutes 5)
          (Lambda_create_task Coro_update_high_movement_stocks);
    mkJob (Every_minutes 5) (Lambda_create_task Coro_track_targets);
    mkJob (Every_minutes 10) Func_watch_positive_news_stocks;
    mkJob (Every_day_at 20 0)
          (Lambda_create_task Coro_send_daily_report_task);
    mkJob (Every_day_at 0 5)
          (Lambda_create_task Coro_clean_trade_history_task);
    mkJob (Every_minutes 15) (Lambda_create_task Coro_send_pnl_summary);
    mkJob (Every_day_at 15 50)
          (Lambda_create_task Coro_close_all_positions_before_market_close);
    mkJob (Every_minutes 1) Lambda_asyncio_run_verify_active_stop_orders ].

Section Dispatch.

Variable env : Env.

(** The body a task runs once the event loop gets to it. *)
Definition coro_body (c : coro) : M unit :=
  match c with
  | Coro_scheduled_tasks => scheduled_tasks env
  | Coro_daily_model_training => daily_model_training env
  | Coro_update_symbols => update_symbols env
  | Coro_update_market_data => update_market_data env
  | Coro_update_pump_stocks => update_pump_stocks env
  | Coro_update_high_movement_stocks => update_high_movement_stocks env
  | Coro_track_targets => track_targets env
  | Coro_send_daily_report_task => send_daily_report_task env
  | Coro_clean_trade_history_task => clean_trade_history_task env
  | Coro_send_pnl_summary => send_pnl_summary env
  | Coro_close_all_positions_before_market_close =>
      close_all_positions_before_market_close env
  end.

(** Calling the registered callable, as [schedule.run_pending] does for a
    due job.  main.py neither defines nor imports
    [verify_active_stop_orders], so evaluating that name raises. *)
Definition call_job_func (f : job_func) : M unit :=
  match f with
  | Lambda_create_task c => create_task c
  | Func_watch_positive_news_stocks => watch_positive_news_stocks env
  | Lambda_asyncio_run_verify_active_stop_orders =>
      raise (Exception "name 'verify_active_stop_orders' is not defined")
  end.

(** One [schedule.run_pending()] of [keep_running_schedules] over the
    jobs that are due, in order; an exception of a callable ends it. *)
Fixpoint run_pending (due : list job) : M unit :=
  match due with
  | [] => ret tt
  | j :: rest => call_job_func (job_do j) ;; run_pending rest
  end.

End Dispatch.

(** ** The schedule and the daily job at 00:00 *)

Module DailyJob.

(** Times are seconds on the host's local clock (what [schedule] reads
    through [datetime.now()]); a calendar day has 86400 of them. *)
Definition day_of (t : Z) : Z := t / 86400.

(** [Job._schedule_next_run] at [now]: an interval job is due again
    after its interval; a job [every().day.at("hh:mm")] at the next
    hh:mm strictly after [now]. *)
Definition next_run_after (c : cadence) (now : Z) : Z :=
  match c with
  | Every_minutes n => now + n * 60
  | Every_day_at hh mm =>
      let today := day_of now * 86400 + hh * 3600 + mm * 60 in
      if today <=? now then today + 86400 else today
  end.

(** What [schedule] keeps: the jobs in registration order, each with its
    [next_run].  Nothing of it is written to disk. *)
Abbreviation table := (list (job * Z)).

(** Lines 235 to 246 executed at [now]. *)
Definition register (now : Z) : table :=
  map (fun j => (j, next_run_after (job_cadence j) now)) registered_jobs.

(** Position and [next_run] of every entry. *)
Fixpoint indexed_from (k : nat) (tb : table) : list (nat * Z) :=
  match tb with
  | [] => []
  | entry :: rest => (k, snd entry) :: indexed_from (S k) rest
  end.

(** [sorted(...)] on jobs compares [next_run] and is stable. *)
Fixpoint insert_by_next_run (x : nat * Z) (l : list (nat * Z))
  : list (nat * Z) :=
  match l with
  | [] => [x]
  | y :: rest =>
      if snd x <=? snd y then x :: l else y :: insert_by_next_run x rest
  end.

Definition sorted_by_next_run (l : list (nat * Z)) : list (nat * Z) :=
  foldr insert_by_next_run [] l.

(** [sorted(job for job in self.jobs if job.should_run)] at [now], as
    positions in the table; [should_run] is [now >= next_run]. *)
Definition runnable (tb : table) (now : Z) : list nat :=
  map fst (sorted_by_next_run
             (List.filter (fun x => snd x <=? now) (indexed_from 0 tb))).

(** Calling the callable raises (see [call_job_func]). *)
Definition raises_when_called (f : job_func) : bool :=
  match f with
  | Lambda_asyncio_run_verify_active_stop_orders => true
  | _ => false
  end.

(** The loop of [run_pending] over the runnable jobs at [now]: each
    callable is called and its job planned again; a callable that raises
    ends the loop, and with it [keep_running_schedules].  The result is
    the new table, the callables called, and whether the dispatcher is
    still alive.  One clock reading stands for the whole call. *)
Fixpoint run_jobs (now : Z) (order : list nat) (tb : table)
  : table * list job_func * bool :=
  match order with
  | [] => (tb, [], true)
  | i :: rest =>
      match tb !! i with
      | None => run_jobs now rest tb
      | Some (j, _) =>
          if raises_when_called (job_do j) then (tb, [job_do j], false)
          else
            let '(tb', called, alive) :=
              run_jobs now rest
                (<[i := (j, next_run_after (job_cadence j) now)]> tb) in
            (tb', job_do j :: called, alive)
      end
  end.

(** [keep_running_schedules] over the successive ticks: the callables
    called, each with the time of its tick. *)
Fixpoint dispatch (tb : table) (ticks : list Z) : list (Z * job_func) :=
  match ticks with
  | [] => []
  | t :: rest =>
      let '(tb', called, alive) := run_jobs t (runnable tb t) tb in
      (map (pair t) called ++ (if alive then dispatch tb' rest else []))%list
  end.

(** The callable of the job registered at line 235. *)
Definition is_training (f : job_func) : bool :=
  match f with
  | Lambda_create_task Coro_daily_model_training => true
  | _ => false
  end.

(** The times at which the 00:00 job fires, for a process that
    registered its jobs at [registered] and ticks at [ticks]. *)
Definition fires (registered : Z) (ticks : list Z) : list Z :=
  map fst (List.filter (fun c => is_training (snd c))
             (dispatch (register registered) ticks)).

(** One life of the process: [started] is when [main] awaits
    [daily_model_training()] (line 230), [registered] when lines 235 to
    246 run, [ticks] the times at which [keep_running_schedules] would
    call [run_pending] if it lives that long. *)
Record process : Type := mkProcess {
  started : Z;
  registered : Z;
  ticks : list Z
}.

(** The times at which the daily training is launched during one life of
    the process: once at start-up, and at every firing of the job. *)
Definition trainings (p : process) : list Z :=
  started p :: fires (registered p) (ticks p).







End DailyJob.

(** The callable hands its work to [asyncio.create_task]. *)
Definition spawns (f : job_func) : Prop :=
  match f with Lambda_create_task _ => True | _ => False end.

(** ** Read-outs used to state the properties *)

(** The value the [try] body of [fetch_news_sentiment] computes for a
    symbol, or the exception it raises; it depends on the news service
    only. *)
Definition sentiment_query (env : Env) (symbol : string) : result string :=
  match requests_get env (news_url env symbol) with
  | Raise e => Raise e
  | Ok response =>
      if status_code response =? 200 then
        match response_json response with
        | Raise e => Raise e
        | Ok data =>
            match dict_get data "data" (JArr []) with
            | Raise e => Raise e
            | Ok articles =>
                match py_iter articles with
                | Raise e => Raise e
                | Ok items =>
                    match scan_articles env items with
                    | Raise e => Raise e
                    | Ok (Some sentiment) => Ok sentiment
                    | Ok None => Ok "neutral"
                    end
                end
            end
        end
      else Ok "neutral"
  end.

(** The sentiment of a symbol during a run. *)
Definition sentiment_of (env : Env) (symbol : string) : string :=
  match sentiment_query env symbol with
  | Ok s => s
  | Raise _ => "neutral"
  end.

(** The symbols stored in the positive watchlist: none when the file is
    absent; [None] when the file cannot be read as a list of stocks. *)
Definition old_symbols_of (w : World) : option (list string) :=
  match fs w !! POSITIVE_NEWS_FILE with
  | None => Some []
  | Some (StockList l) => Some (map symbol l)
  | Some (RawText _) => None
  end.

(** The fetched stocks with positive sentiment whose symbol is not among
    the stored ones, in the order fetched. *)
Definition new_positive (env : Env) (old : list string) (stocks : list stock)
  : list stock :=
  List.filter
    (fun st => String.eqb (sentiment_of env (symbol st)) "positive"
               && not_in (symbol st) old)
    stocks.

(** The Telegram transport does not touch the watchlist file. *)
Definition send_keeps_watchlist (env : Env) : Prop :=
  forall m w,
    fs (snd (send_telegram_message env m w)) !! POSITIVE_NEWS_FILE
    = fs w !! POSITIVE_NEWS_FILE.

(** The Telegram transport never raises. *)
Definition send_returns (env : Env) : Prop :=
  forall m w, fst (send_telegram_message env m w) = Ok tt.

(** The stock feed does not touch the watchlist file. *)
Definition fetch_keeps_watchlist (env : Env) : Prop :=
  forall w,
    fs (snd (fetch_stocks_from_tradingview env w)) !! POSITIVE_NEWS_FILE
    = fs w !! POSITIVE_NEWS_FILE.

(** A collaborator that returns normally, leaves [data] in the file
    [name] and does not touch [name_old]. *)
Definition writes_snapshot (writer : M unit) (name name_old : string)
    (data : content) : Prop :=
  forall w, exists w1,
    writer w = (Ok tt, w1) /\ fs w1 !! name = Some data /\
    fs w1 !! name_old = fs w !! name_old.

(** A collaborator that, whether it returns or raises, leaves the file
    [p] as it was. *)
Definition keeps_file (m : M unit) (p : string) : Prop :=
  forall w, fs (snd (m w)) !! p = fs w !! p.

(** After a refresh from [w] to [w']: [name] holds the new [data],
    and [name_old] holds what [name] held in [w]; when [name] did not
    exist in [w], [name_old] is as it was in [w]. *)
Definition backed_up (name name_old : string) (data : content)
    (w w' : World) : Prop :=
  fs w' !! name = Some data /\
  (forall c, fs w !! name = Some c -> fs w' !! name_old = Some c) /\
  (fs w !! name = None -> fs w' !! name_old = fs w !! name_old).

(** The latest close is down by more than 1% of the prior close. *)
Definition down_more_than_one_percent (prev_close today_close : Q) : Prop :=
  (prev_close * (1 # 100) < prev_close - today_close)%Q.

(** The error logger returns normally. *)
Definition log_action_returns (env : Env) : Prop :=
  forall m level w, fst (log_action env m level w) = Ok tt.

(** ** Sample readings, worlds and collaborators *)

Definition monday_09_29_59 : DateTime := mkDateTime 0 9 29 59.
Definition monday_10_15_00 : DateTime := mkDateTime 0 10 15 0.
Definition saturday_11_00_00 : DateTime := mkDateTime 5 11 0 0.
Definition clock_failure : exn := Exception "America/New_York".

Definition empty_world : World := mkWorld ∅ [] [] [].

(** A Telegram transport that delivers. *)
Definition delivering (m : string) : M unit := fun w => (Ok tt, add_alert m w).

(** A news service without articles. *)
Definition no_news (url : string) : result response :=
  Ok (mkResponse 200 (Ok (JObj [("data", JArr [])]))).

(** Collaborators that all return normally, apart from the ones given. *)
Definition sample_env (clock : result DateTime)
    (get : string -> result response) (hist : result (list Q))
    (stocks : M (list stock)) (detect report cleanup : M unit) : Env :=
  {| NEWS_API_KEY := "demo-token";
     str_lower := ascii_lower;
     ny_now := clock;
     requests_get := get;
     spy_history := hist;
     log_action := fun m _ => log m;
     fetch_stocks_from_tradingview := stocks;
     send_telegram_message := delivering;
     analyze_market := ret tt;
     compare_stock_lists_and_alert := fun _ _ _ => ret tt;
     check_cross_list_movements := ret tt;
     fetch_all_us_symbols := ret [];
     save_symbols_to_csv := fun _ => ret tt;
     detect_pump_stocks := detect;
     analyze_high_movement_stocks := ret tt;
     check_targets := ret tt;
     generate_report_summary := report;
     clean_old_trades := cleanup;
     train_model_daily := ret tt;
     scheduled_tasks := ret tt;
     send_pnl_summary := ret tt;
     close_all_positions_before_market_close := ret tt |}.

Definition quiet_env (clock : result DateTime) : Env :=
  sample_env clock no_news (Ok []) (ret []) (ret tt) (ret tt) (ret tt).

Definition report_failure : exn := Exception "report file missing".
Definition cleanup_failure : exn := Exception "trade history unreadable".

(** Report and clean-up collaborators that raise. *)
Definition failing_env : Env :=
  sample_env (Ok saturday_11_00_00) no_news (Ok []) (ret [])
    (ret tt) (raise report_failure) (raise cleanup_failure).

(** News services for the examples. *)
Definition news_down (url : string) : result response :=
  Raise (Exception "connection refused").

Definition news_unavailable (url : string) : result response :=
  Ok (mkResponse 503 (Raise (Exception "Expecting value"))).

Definition news_malformed (url : string) : result response :=
  Ok (mkResponse 200 (Raise (Exception "Expecting value"))).

Definition news_not_a_dict (url : string) : result response :=
  Ok (mkResponse 200 (Ok (JArr []))).

Definition news_data_not_a_list (url : string) : result response :=
  Ok (mkResponse 200 (Ok (JObj [("data", JNum 3)]))).

Definition news_article_without_text (url : string) : result response :=
  Ok (mkResponse 200 (Ok (JObj [("data", JArr [JObj [("title", JNull)]])]))).

Definition headline (title : string) : result response :=
  Ok (mkResponse 200 (Ok (JObj [("data", JArr [JObj [("title", JStr title)]])]))).

(** Good news for GOOD and OLDIE, none for the others. *)
Definition news_by_symbol (url : string) : result response :=
  if contains "symbols=GOOD&" url || contains "symbols=OLDIE&" url
  then headline "Company posts Record Revenue"
  else no_news url.

Definition news_env (get : string -> result response) : Env :=
  sample_env (Ok monday_10_15_00) get (Ok []) (ret []) (ret tt) (ret tt) (ret tt).

Definition good_stock : stock := mkStock "GOOD" [("price", JNum 12)].
Definition oldie_stock : stock := mkStock "OLDIE" [].
Definition dull_stock : stock := mkStock "DULL" [].

Definition watch_env : Env :=
  sample_env (Ok monday_10_15_00) news_by_symbol (Ok [])
    (ret [good_stock; oldie_stock; dull_stock]) (ret tt) (ret tt) (ret tt).

Definition watch_world : World :=
  mkWorld {[ POSITIVE_NEWS_FILE := StockList [oldie_stock] ]} [] [] [].

(** A pump detector that writes its result, and a world in which only
    the previous generation of the pump list is left. *)
Definition refresh_env : Env :=
  sample_env (Ok monday_10_15_00) no_news (Ok []) (ret [])
    (json_dump [good_stock] "data/pump_stocks.json") (ret tt) (ret tt).

Definition stale_world : World :=
  mkWorld {[ "data/pump_stocks_old.json" := StockList [oldie_stock] ]} [] [] [].

Definition pump_world : World :=
  mkWorld {[ "data/pump_stocks.json" := StockList [dull_stock] ]} [] [] [].

Definition quote_failure : exn := Exception "No data found for SPY".

Definition spy_env (hist : result (list Q)) : Env :=
  sample_env (Ok monday_10_15_00) no_news hist (ret []) (ret tt) (ret tt) (ret tt).

Definition overnight_life : DailyJob.process :=
  DailyJob.mkProcess 86340 86350 [86350; 86380; 86410; 86440].

(** A life in which 00:00 comes one second after the job of line 246
    becomes due. *)
Definition preempted_life : DailyJob.process :=
  DailyJob.mkProcess 86330 86339 [86339; 86370; 86400].

(** ** Start-up and the dispatch loop of [main] *)

(** Lines 228 to 233 of [main]: the task for [scheduled_tasks] is
    created, then the training and the three refreshes are awaited one
    after the other. *)
Definition main_startup (env : Env) : M unit :=
  create_task Coro_scheduled_tasks ;;
  daily_model_training env ;;
  update_market_data env ;;
  update_pump_stocks env ;;
  update_high_movement_stocks env.

(** [keep_running_schedules]: [while True: schedule.run_pending();
    await asyncio.sleep(30)], unrolled over the successive ticks, each
    given by the jobs due at it.  [asleep] is whatever the event loop
    does while the dispatcher sleeps (the tasks it runs).  The loop has
    no [try]. *)
Fixpoint keep_running_schedules (env : Env) (asleep : M unit)
    (due_at : list (list job)) : M unit :=
  match due_at with
  | [] => ret tt
  | due :: later =>
      run_pending env due ;;
      asleep ;;
      keep_running_schedules env asleep later
  end.

(** The tasks created by a run of callables that all hand their work to
    [asyncio.create_task]. *)
Fixpoint spawned (due : list job) : list coro :=
  match due with
  | [] => []
  | j :: rest =>
      match job_do j with
      | Lambda_create_task c => c :: spawned rest
      | _ => spawned rest
      end
  end.

(** The job registered at line 246. *)
Definition stop_order_job : job :=
  mkJob (Every_minutes 1) Lambda_asyncio_run_verify_active_stop_orders.

Definition name_error : exn :=
  Exception "name 'verify_active_stop_orders' is not defined".

(** ** Read-outs for the news search *)

(** One of the four phrases [fetch_news_sentiment] looks for. *)
Definition has_keyword (title : string) : bool :=
  contains "bankruptcy" title || contains "dilution" title
  || contains "record revenue" title || contains "strong earnings" title.

(** An article the loop passes over: a dict whose title (the empty
    string when it has none) is a string whose lower-casing has none of
    the phrases. *)
Definition quiet_article (env : Env) (article : json) : Prop :=
  match article with
  | JObj fields =>
      match items_lookup "title" fields with
      | None => has_keyword (str_lower env "") = false
      | Some (JStr s) => has_keyword (str_lower env s) = false
      | Some _ => False
      end
  | _ => False
  end.

(** The message sent for a new positive stock. *)
Definition positive_message (symbol : string) : string :=
  "📢 سهم جديد بأخبار إيجابية:" ++ String "010" "📈 " ++ symbol
  ++ String "010" "✅ تم رصده في السوق".

(** A stock feed that returns [stocks] and does nothing else, and a
    Telegram transport that delivers every message. *)
Definition plain_feed (env : Env) (stocks : list stock) : Prop :=
  forall w, fetch_stocks_from_tradingview env w = (Ok stocks, w).

Definition delivers (env : Env) : Prop :=
  forall m w, send_telegram_message env m w = (Ok tt, add_alert m w).

(** The fetched stocks with positive sentiment whose symbol is among the
    stored ones. *)
Definition known_positive (env : Env) (old : list string) (stocks : list stock)
  : list stock :=
  List.filter
    (fun st => String.eqb (sentiment_of env (symbol st)) "positive"
               && negb (not_in (symbol st) old))
    stocks.

(** Further sample data. *)
Definition closed_env : Env := quiet_env (Ok saturday_11_00_00).

Definition broken_detector : exn := Exception "screener timed out".

Definition broken_refresh_env : Env :=
  sample_env (Ok monday_10_15_00) no_news (Ok []) (ret [])
    (raise broken_detector) (ret tt) (ret tt).

Definition second_refresh_env : Env :=
  sample_env (Ok monday_10_15_00) no_news (Ok []) (ret [])
    (json_dump [oldie_stock] "data/pump_stocks.json") (ret tt) (ret tt).

Definition clockless_env : Env := quiet_env (Raise clock_failure).

(** The three backup files of the market refresh. *)
Definition backup_files : list string :=
  [ "data/top_stocks_old.json"; "data/pump_stocks_old.json";
    "data/high_movement_stocks_old.json" ].

(** The collaborators of [update_market_data] leave the file [p] alone,
    whether they return or raise. *)
Definition market_collaborators_keep (env : Env) (p : string) : Prop :=
  keeps_file (analyze_market env) p /\
  (forall a b c, keeps_file (compare_stock_lists_and_alert env a b c) p) /\
  keeps_file (check_cross_list_movements env) p.

(** The news service answers the query for [symbol] with status 200 and
    a dict whose ["data"] is the list [articles]. *)
Definition news_articles (env : Env) (symbol : string) (articles : list json)
  : Prop :=
  exists r fields,
    requests_get env (news_url env symbol) = Ok r /\
    status_code r = 200 /\
    response_json r = Ok (JObj fields) /\
    items_lookup "data" fields = Some (JArr articles).

(** The title of the article, when it is a dict with a string title. *)
Definition title_of (article : json) (title : string) : Prop :=
  exists fields,
    article = JObj fields /\ items_lookup "title" fields = Some (JStr title).

(** The lower-cased title has one of the two negative phrases. *)
Definition negative_title (env : Env) (title : string) : Prop :=
  contains "bankruptcy" (str_lower env title) = true
  \/ contains "dilution" (str_lower env title) = true.

(** The lower-cased title has one of the two positive phrases and none
    of the negative ones. *)
Definition positive_title (env : Env) (title : string) : Prop :=
  contains "bankruptcy" (str_lower env title) = false /\
  contains "dilution" (str_lower env title) = false /\
  (contains "record revenue" (str_lower env title) = true
   \/ contains "strong earnings" (str_lower env title) = true).

(** Python lower-cases this text as ASCII, as it does every text made of
    ASCII characters only. *)
Definition lowers_as_ascii (env : Env) (text : string) : Prop :=
  str_lower env text = ascii_lower text.

(** An entry of the article list on which the loop raises: not a dict,
    or a dict whose title is not a string. *)
Definition malformed_article (article : json) : Prop :=
  match article with
  | JObj fields =>
      match items_lookup "title" fields with
      | None | Some (JStr _) => False
      | Some _ => True
      end
  | _ => True
  end.

Definition articles_response (articles : list json) (url : string)
  : result response :=
  Ok (mkResponse 200 (Ok (JObj [("status", JStr "ok"); ("data", JArr articles)]))).

Definition article (title : string) : json :=
  JObj [("uuid", JNum 7); ("title", JStr title)].

Definition monday_16_30_00 : DateTime := mkDateTime 0 16 30 0.

(** The callable is not the one of line 246. *)
Definition defined_callable (f : job_func) : Prop :=
  f <> Lambda_asyncio_run_verify_active_stop_orders.

Definition five_minute_jobs : list job :=
  [ mkJob (Every_minutes 5) (Lambda_create_task Coro_update_market_data);
    mkJob (Every_minutes 5) (Lambda_create_task Coro_update_pump_stocks) ].

(** ** enhanced_main.py: health check and start-up notification *)

(** What a method of [SimpleEnhancedTradingSystem] leaves behind: a
    record of the logger (level and message), a line printed, a message
    sent through the Telegram bot. *)
Inductive event : Type :=
  | Logged (level msg : string)
  | Printed (msg : string)
  | Sent (chat_id : json) (text : string).

(** [bool(x)]: [None], [False], zero and empty containers are false. *)
Definition py_truthy (x : json) : bool :=
  match x with
  | JNull => false
  | JBool b => b
  | JNum n => negb (n =? 0)
  | JStr s => negb (String.eqb s "")
  | JArr items => match items with [] => false | _ :: _ => true end
  | JObj fields => match fields with [] => false | _ :: _ => true end
  end.

(** [d[key]] with a string key: only a dict can be indexed so, and the
    key must be present. *)
Definition py_getitem (d : json) (key : string) : result json :=
  match d with
  | JObj fields =>
      match items_lookup key fields with
      | Some v => Ok v
      | None => Raise (Exception ("'" ++ key ++ "'"))
      end
  | _ => Raise (Exception "object is not subscriptable by a string")
  end.

(** [x != "..."] for a value read from the configuration. *)
Definition differs_from (x : json) (s : string) : bool :=
  match x with
  | JStr t => negb (String.eqb t s)
  | _ => true
  end.

(** The Telegram library as [send_startup_notification] uses it: whether
    [from telegram import Bot] succeeds, the outcome of [Bot(token=...)]
    and the outcome of [bot.send_message(chat_id=..., text=...)].  An
    [exn] carries the text of an exception only; [is_import_error] says
    whether the exception is an instance of [ImportError]. *)
Record Telegram : Type := mkTelegram {
  telegram_importable : bool;
  make_bot : json -> result unit;
  bot_send_message : json -> json -> string -> result unit;
  is_import_error : exn -> bool   (* the class test of [except ImportError] *)
}.

Definition newline : string := String "010" "".

(** ['Paper Trading' if self.config.get('system',
    {}).get('enable_paper_trading', True) else 'Live Trading']. *)
Definition trading_mode (config : json) : result string :=
  match dict_get config "system" (JObj []) with
  | Raise e => Raise e
  | Ok system =>
      match dict_get system "enable_paper_trading" (JBool true) with
      | Raise e => Raise e
      | Ok flag =>
          Ok (if py_truthy flag then "Paper Trading" else "Live Trading")
      end
  end.

Definition startup_message (mode started : string) : string :=
  newline ++ "🚀 Enhanced Trading System Online" ++ newline ++ newline
  ++ "✅ Status: Running" ++ newline
  ++ "📊 Mode: " ++ mode ++ newline
  ++ "⏰ Started: " ++ started ++ newline
  ++ "🔧 Version: 2.0 Professional" ++ newline ++ newline
  ++ "System is ready and monitoring!" ++ newline.

(** [self.config["notifications"][key]]. *)
Definition notification_setting (config : json) (key : string) : result json :=
  match py_getitem config "notifications" with
  | Raise e => Raise e
  | Ok section => py_getitem section key
  end.

Definition token_of (config : json) : result json :=
  notification_setting config "telegram_bot_token".

Definition chat_id_of (config : json) : result json :=
  notification_setting config "telegram_chat_id".

(** The [try] body of [send_startup_notification]: the events of a run
    that ends normally, or the exception raised (no event precedes an
    exception).  [started] is the outcome of
    [datetime.now().strftime(...)].  When the library cannot be
    imported, the [import] raises [ImportError] and the first handler
    logs and prints the two lines given here. *)
Definition startup_notification_body (tg : Telegram) (started : result string)
    (config : json) : result (list event) :=
  match dict_get config "notifications" (JObj []) with
  | Raise e => Raise e
  | Ok notifications =>
      match dict_get notifications "telegram_bot_token" JNull with
      | Raise e => Raise e
      | Ok probe =>
          if negb (py_truthy probe) then
            Ok [Logged "info" "📱 Telegram not configured - skipping notification";
                Printed "📱 Telegram not configured - skipping notification"]
          else if negb (telegram_importable tg) then
            Ok [Logged "info" "📱 Telegram library not available";
                Printed "📱 Telegram library not available"]
          else
            match token_of config with
            | Raise e => Raise e
            | Ok bot_token =>
                match chat_id_of config with
                | Raise e => Raise e
                | Ok chat_id =>
                    if differs_from bot_token "YOUR_TELEGRAM_BOT_TOKEN" then
                      match make_bot tg bot_token with
                      | Raise e => Raise e
                      | Ok _ =>
                          match trading_mode config with
                          | Raise e => Raise e
                          | Ok mode =>
                              match started with
                              | Raise e => Raise e
                              | Ok now =>
                                  let message := startup_message mode now in
                                  match bot_send_message tg bot_token chat_id
                                          message with
                                  | Raise e => Raise e
                                  | Ok _ =>
                                      Ok [Sent chat_id message;
                                          Logged "info" "✅ Startup notification sent to Telegram";
                                          Printed "✅ Startup notification sent to Telegram"]
                                  end
                              end
                          end
                      end
                    else Ok []
                end
            end
      end
  end.

(** The events of [except ImportError:] and of [except Exception as
    e:]. *)
Definition unavailable_events : list event :=
  [Logged "info" "📱 Telegram library not available";
   Printed "📱 Telegram library not available"].

Definition failure_events (e : exn) : list event :=
  [Logged "warning" ("📱 Telegram notification failed: " ++ exn_text e);
   Printed ("📱 Telegram notification failed: " ++ exn_text e)].

(** The two handlers cover the whole [try] body, [except ImportError]
    first: an exception of that class raised anywhere in the body is
    reported as a missing library, any other as a failure. *)
Definition handler_events (tg : Telegram) (e : exn) : list event :=
  if is_import_error tg e then unavailable_events else failure_events e.

(** [send_startup_notification]: the events of the body, or those of
    the handler that takes the exception. *)
Definition send_startup_notification (tg : Telegram) (started : result string)
    (config : json) : list event :=
  match startup_notification_body tg started config with
  | Ok events => events
  | Raise e => handler_events tg e
  end.

(** [perform_health_check].  [stamp] is the outcome of
    [datetime.now().strftime(...)], [host] the clock reading inside
    [check_market_open], [repr] Python's rendering of the status dict in
    the log line.  The entries of the dict are evaluated in order, so a
    failure in one of them keeps the later ones from being evaluated. *)
Definition perform_health_check (repr : json -> string)
    (stamp : result string) (host : result DateTime) (config : json)
  : json * list event :=
  let failed (e : exn) (before : list event) :=
    (JObj [("system_status", JStr "❌ ERROR"); ("error", JStr (exn_text e))],
     (before ++ [Logged "error" ("Health check failed: " ++ exn_text e);
                 Printed ("❌ Health check failed: " ++ exn_text e)])%list) in
  match stamp with
  | Raise e => failed e []
  | Ok timestamp =>
      match dict_get config "system" (JObj []) with
      | Raise e => failed e []
      | Ok system =>
          match dict_get system "enable_paper_trading" (JBool true) with
          | Raise e => failed e []
          | Ok paper_trading =>
              let (answer, lines) := check_market_open host in
              let checked := map (Logged "error") lines in
              match answer with
              | Raise e => failed e checked
              | Ok open =>
                  let market_status :=
                    if open then "🟢 OPEN" else "🔴 CLOSED" in
                  let health_status :=
                    JObj [("timestamp", JStr timestamp);
                          ("system_status", JStr "✅ HEALTHY");
                          ("paper_trading", paper_trading);
                          ("market_status", JStr market_status)] in
                  (health_status,
                   (checked
                    ++ [Logged "info" ("Health Check: " ++ repr health_status);
                        Printed ("📊 Health Check: ✅ HEALTHY | Market: "
                                 ++ market_status)])%list)
              end
          end
      end
  end.

(** Sample configurations and a Telegram library that works. *)
Definition working_telegram : Telegram :=
  mkTelegram true (fun _ => Ok tt) (fun _ _ _ => Ok tt) (fun _ => false).

(** A library whose [send_message] needs a module that is not
    installed. *)
Definition missing_module : exn := Exception "No module named 'httpx'".

Definition broken_telegram : Telegram :=
  mkTelegram true (fun _ => Ok tt) (fun _ _ _ => Raise missing_module)
    (fun e => String.eqb (exn_text e) "No module named 'httpx'").

Definition configured (token : json) : json :=
  JObj [("system", JObj [("enable_paper_trading", JBool false)]);
        ("notifications",
         JObj [("telegram_bot_token", token); ("telegram_chat_id", JNum 42)])].

Definition token_without_chat : json :=
  JObj [("notifications", JObj [("telegram_bot_token", JStr "123:abc")])].

Definition plain_repr (j : json) : string := "{...}".

Definition is_sent (ev : event) : bool :=
  match ev with Sent _ _ => true | _ => false end.

(** The configuration carries a bot token that counts as set. *)
Definition token_set (config : json) (token : json) : Prop :=
  token_of config = Ok token /\ py_truthy token = true.

(** A configuration that is a dict whose ["notifications"] entry, when
    there is one, is a dict. *)
Definition well_shaped (config : json) : Prop :=
  match config with
  | JObj fields =>
      match items_lookup "notifications" fields with
      | None | Some (JObj _) => True
      | Some _ => False
      end
  | _ => False
  end.


Definition symbols_env (symbols : M (list string)) (save : list string -> M unit)
  : Env :=
  {| NEWS_API_KEY := "demo-token";
     str_lower := ascii_lower;
     ny_now := Ok monday_10_15_00;
     requests_get := no_news;
     spy_history := Ok [];
     log_action := fun m _ => log m;
     fetch_stocks_from_tradingview := ret [];
     send_telegram_message := delivering;
     analyze_market := ret tt;
     compare_stock_lists_and_alert := fun _ _ _ => ret tt;
     check_cross_list_movements := ret tt;
     fetch_all_us_symbols := symbols;
     save_symbols_to_csv := save;
     detect_pump_stocks := ret tt;
     analyze_high_movement_stocks := ret tt;
     check_targets := ret tt;
     generate_report_summary := ret tt;
     clean_old_trades := ret tt;
     train_model_daily := ret tt;
     scheduled_tasks := ret tt;
     send_pnl_summary := ret tt;
     close_all_positions_before_market_close := ret tt |}.

Definition disk_full : exn := Exception "No space left on device".

(** ** Tactics *)

(** Boolean comparisons on [Z] turned into propositions for [lia]. *)
Ltac zbool :=
  repeat (progress rewrite ?andb_true_iff, ?orb_true_iff, ?negb_true_iff,
    ?andb_false_iff, ?orb_false_iff,
    ?Z.ltb_lt, ?Z.leb_le, ?Z.eqb_eq, ?Z.ltb_ge, ?Z.leb_gt, ?Z.eqb_neq in * ).

(** * Properties *)

Lemma Ok_inj {A : Type} (a b : A) : Ok a = Ok b -> a = b.
Proof. congruence. Qed.

(** ** The session clock *)

Lemma is_market_open_session (t : DateTime) :
  wf_datetime t -> (is_market_open (Ok t) = Ok true <-> in_session t).
Proof.
  intros (Hw & Hh & Hm & Hs).
  unfold is_market_open, in_session, time_of_day.
  cbv beta iota zeta delta [tuple_le tuple_lt fst snd].
  destruct (Z.leb_spec 5 (weekday t)) as [Hwk | Hwk].
  - split; [discriminate | lia].
  - split.
    + intros H. apply Ok_inj in H. zbool. lia.
    + intros H. f_equal. zbool. lia.
Qed.

(** C3 (as amended).  [is_market_open] of main.py answers true exactly
    when the New York reading is on Monday..Friday with a time of day in
    [09:30, 16:00), and false otherwise, in particular at 16:00:00 and at
    09:29:59 of a weekday.  [check_market_open] of enhanced_main.py looks
    at the hour of the host's clock only: false at the weekend and for an
    hour before 9 or after 16, true on Monday..Friday for the hours 9 to
    15. *)
Theorem market_open_checks (t : DateTime) :
  wf_datetime t ->
  (is_market_open (Ok t) = Ok true <-> in_session t) /\
  (is_market_open (Ok t) = Ok false <-> ~ in_session t) /\
  (forall wd, 0 <= wd <= 4 ->
     is_market_open (Ok (mkDateTime wd 16 0 0)) = Ok false /\
     is_market_open (Ok (mkDateTime wd 9 29 59)) = Ok false) /\
  (5 <= weekday t \/ hour t < 9 \/ 16 < hour t ->
     check_market_open (Ok t) = (Ok false, [])) /\
  (weekday t <= 4 /\ 9 <= hour t <= 15 ->
     check_market_open (Ok t) = (Ok true, [])).
Proof.
  intros Hwf.
  pose proof (is_market_open_session t Hwf) as Hiff.
  split; [exact Hiff |].
  split.
  { assert (Hb : exists b, is_market_open (Ok t) = Ok b).
    { unfold is_market_open. destruct (5 <=? weekday t); eauto. }
    destruct Hb as [[|] Hb]; rewrite Hb in *.
    - split; [discriminate | intros Hn; exfalso; apply Hn, Hiff; reflexivity].
    - split; [intros _ Hs; apply Hiff in Hs; discriminate | reflexivity]. }
  split.
  { intros wd Hwd. unfold is_market_open; cbn [weekday hour minute].
    destruct (Z.leb_spec 5 wd); [lia |]. split; reflexivity. }
  unfold check_market_open. split.
  - intros H. destruct (Z.leb_spec 5 (weekday t)); [reflexivity |].
    destruct (Z.leb_spec 9 (hour t)); destruct (Z.leb_spec (hour t) 16);
      cbn; try reflexivity; lia.
  - intros [Hwd Hh]. destruct (Z.leb_spec 5 (weekday t)); [lia |].
    destruct (Z.leb_spec 9 (hour t)); destruct (Z.leb_spec (hour t) 16);
      cbn; try reflexivity; lia.
Qed.

Lemma market_open_checks_witness :
  wf_datetime monday_10_15_00 /\
  is_market_open (Ok monday_10_15_00) = Ok true /\
  check_market_open (Ok monday_10_15_00) = (Ok true, []).
Proof.
  assert (Hwf : wf_datetime monday_10_15_00)
    by (unfold wf_datetime, monday_10_15_00; cbn; lia).
  destruct (market_open_checks monday_10_15_00 Hwf)
    as (Hopen & _ & _ & _ & Hhost).
  split; [exact Hwf |]. split.
  - apply Hopen. unfold in_session, time_of_day, monday_10_15_00; cbn. lia.
  - apply Hhost. unfold monday_10_15_00; cbn. lia.
Defined.

(** C3, as stated, fails for [check_market_open]: on a Monday at
    09:29:59, outside the session, it answers true. *)
Lemma check_market_open_before_session :
  wf_datetime monday_09_29_59 /\
  ~ in_session monday_09_29_59 /\
  check_market_open (Ok monday_09_29_59) = (Ok true, []).
Proof.
  split; [unfold wf_datetime, monday_09_29_59; cbn; lia |].
  split; [| reflexivity].
  unfold in_session, time_of_day, monday_09_29_59; cbn. lia.
Qed.

(** C8 (as amended).  When reading the clock raises, [check_market_open]
    of enhanced_main.py logs the error and answers true, while
    [is_market_open] of main.py, which has no handler, lets the exception
    reach its caller. *)
Theorem clock_failure_handling (e : exn) :
  check_market_open (Raise e)
    = (Ok true, ["Market check error: " ++ exn_text e]) /\
  is_market_open (Raise e) = Raise e.
Proof. split; reflexivity. Qed.

(** C8, as stated, fails for [is_market_open]: a failing time-zone
    lookup is raised to the caller and no answer is returned. *)
Lemma is_market_open_raises_on_clock_failure :
  is_market_open (Raise clock_failure) = Raise clock_failure /\
  is_market_open (Raise clock_failure) <> Ok true.
Proof. split; [reflexivity | discriminate]. Qed.

(** ** Dispatch of the registered jobs *)

Lemma run_pending_spawns (env : Env) (due : list job) (w : World) :
  Forall (fun j => spawns (job_do j)) due ->
  exists cs,
    length cs = length due /\
    run_pending env due w
      = (Ok tt, mkWorld (fs w) (alerts w) (logs w) (tasks w ++ cs)).
Proof.
  intros Hdue. revert w. induction Hdue as [| j due Hj _ IH]; intros w.
  - exists []. split; [reflexivity |]. cbn. rewrite app_nil_r.
    destruct w; reflexivity.
  - destruct j as [cad f]. destruct f as [c | |]; cbn in Hj; try contradiction.
    destruct (IH (add_task c w)) as (cs & Hlen & Hrun).
    exists (c :: cs). split; [cbn; congruence |].
    cbn [run_pending job_do call_job_func]. unfold bind, create_task.
    rewrite Hrun. cbn. rewrite <- app_assoc. reflexivity.
Qed.

(** C1 (as amended).  Every registered job other than the positive-news
    watcher and the stop-order check is registered as
    [lambda: asyncio.create_task(...)]: calling it only appends the
    coroutine to the event loop's tasks and returns, with files, alerts
    and log as they were; and a [run_pending] over due jobs of that kind
    only appends one task per job. *)
Theorem create_task_jobs_only_launch (env : Env) (j : job) (w : World) :
  In j registered_jobs ->
  job_do j <> Func_watch_positive_news_stocks ->
  job_do j <> Lambda_asyncio_run_verify_active_stop_orders ->
  (exists c, job_do j = Lambda_create_task c /\
     call_job_func env (job_do j) w = (Ok tt, add_task c w)) /\
  (forall due, Forall (fun j' => spawns (job_do j')) due ->
     exists cs, length cs = length due /\
       run_pending env due w
         = (Ok tt, mkWorld (fs w) (alerts w) (logs w) (tasks w ++ cs))).
Proof.
  intros Hin Hw Hv. split.
  - unfold registered_jobs in Hin. cbn in Hin.
    repeat (destruct Hin as [<- | Hin];
            [first [ eexists; split; reflexivity
                   | exfalso; apply Hw; reflexivity
                   | exfalso; apply Hv; reflexivity ] |]).
    contradiction.
  - intros due Hdue. apply run_pending_spawns, Hdue.
Qed.

Lemma create_task_jobs_only_launch_witness :
  exists c,
    Lambda_create_task Coro_update_market_data = Lambda_create_task c /\
    call_job_func (quiet_env (Ok monday_10_15_00))
      (Lambda_create_task Coro_update_market_data) empty_world
    = (Ok tt, add_task c empty_world).
Proof.
  refine (proj1 (create_task_jobs_only_launch (quiet_env (Ok monday_10_15_00))
           (mkJob (Every_minutes 5) (Lambda_create_task Coro_update_market_data))
           empty_world _ _ _)).
  - cbn. right. right. left. reflexivity.
  - discriminate.
  - discriminate.
Defined.

(** C1, as stated, fails for the job registered at line 241: its
    callable is [watch_positive_news_stocks] itself, so the call runs the
    whole body (here: two log lines written) before it returns, and no
    task is created. *)
Lemma watcher_job_runs_inside_the_tick :
  In (mkJob (Every_minutes 10) Func_watch_positive_news_stocks)
     registered_jobs /\
  call_job_func (quiet_env (Ok monday_10_15_00))
    Func_watch_positive_news_stocks empty_world
  = (Ok tt,
     mkWorld ∅ []
       ["🟢 فحص الأسهم ذات الأخبار الإيجابية...";
        "⚠️ لا توجد أسهم إيجابية حالياً."] []).
Proof.
  split.
  - cbn. do 6 right. left. reflexivity.
  - reflexivity.
Qed.

(** ** Pipeline actions: failures and gating *)

(** A [try] whose handler only logs never raises. *)
Lemma try_except_log_returns (body : M unit) (msg : exn -> string) (w : World) :
  exists w', try_except body (fun e => log (msg e)) w = (Ok tt, w').
Proof.
  unfold try_except. destruct (body w) as [[[] | e] w1]; cbn; eauto.
Qed.

Lemma daily_model_training_returns (env : Env) (w : World) :
  exists w', daily_model_training env w = (Ok tt, w').
Proof.
  unfold daily_model_training, bind at 1. cbn [log].
  apply (try_except_log_returns _ (fun e => "❌ فشل تدريب النموذج: " ++ exn_text e)).
Qed.

Lemma track_targets_returns (env : Env) (w : World) :
  exists w', track_targets env w = (Ok tt, w').
Proof.
  unfold track_targets, bind at 1. cbn [log].
  apply (try_except_log_returns _ (fun e => "❌ خطأ في متابعة الأهداف: " ++ exn_text e)).
Qed.

(** C2 (the code at the failing inputs).  [send_daily_report_task] and
    [clean_trade_history_task] have no [try]: an exception raised by
    [generate_report_summary] (market closed) or by [clean_old_trades]
    leaves the action as it is, and nothing is logged by the action. *)
Theorem report_and_cleanup_failures_propagate
    (env : Env) (e : exn) (w w1 : World) :
  (is_market_open (ny_now env) = Ok false ->
   generate_report_summary env w = (Raise e, w1) ->
   send_daily_report_task env w = (Raise e, w1)) /\
  (clean_old_trades env w = (Raise e, w1) ->
   clean_trade_history_task env w = (Raise e, w1)).
Proof.
  split.
  - intros Hclosed Hrep. unfold send_daily_report_task, bind, lift.
    rewrite Hclosed. exact Hrep.
  - intros Hclean. exact Hclean.
Qed.

Lemma report_and_cleanup_failures_propagate_witness :
  send_daily_report_task failing_env empty_world
    = (Raise report_failure, empty_world) /\
  clean_trade_history_task failing_env empty_world
    = (Raise cleanup_failure, empty_world).
Proof.
  split.
  - apply (proj1 (report_and_cleanup_failures_propagate
                    failing_env report_failure empty_world empty_world));
      reflexivity.
  - apply (proj2 (report_and_cleanup_failures_propagate
                    failing_env cleanup_failure empty_world empty_world));
      reflexivity.
Defined.

(** C6.  A market-gated action whose gate does not hold returns normally
    and leaves every file, the alerts sent and the tasks created as they
    were (the market refresh writes one log line, the others none): the
    three refresh actions when the market is closed, the daily report
    when it is open. *)
Theorem gated_actions_leave_world (env : Env) (w : World) :
  (is_market_open (ny_now env) = Ok false ->
     update_market_data env w
       = (Ok tt, add_log "⏸️ السوق مغلق - إلغاء التحديث" w) /\
     update_pump_stocks env w = (Ok tt, w) /\
     update_high_movement_stocks env w = (Ok tt, w)) /\
  (is_market_open (ny_now env) = Ok true ->
     send_daily_report_task env w
       = (Ok tt, add_log "⏸️ السوق مفتوح - تأجيل إرسال التقرير" w)) /\
  (forall m, fs (add_log m w) = fs w /\ alerts (add_log m w) = alerts w /\
             tasks (add_log m w) = tasks w).
Proof.
  split; [| split].
  - intros Hclosed.
    unfold update_market_data, update_pump_stocks,
      update_high_movement_stocks, bind, lift.
    rewrite Hclosed. cbn. repeat split.
  - intros Hopen. unfold send_daily_report_task, bind, lift.
    rewrite Hopen. reflexivity.
  - intros m. repeat split.
Qed.

Lemma gated_actions_leave_world_witness :
  update_pump_stocks (quiet_env (Ok saturday_11_00_00)) empty_world
    = (Ok tt, empty_world) /\
  send_daily_report_task (quiet_env (Ok monday_10_15_00)) empty_world
    = (Ok tt, add_log "⏸️ السوق مفتوح - تأجيل إرسال التقرير" empty_world).
Proof.
  split.
  - apply (proj1 (gated_actions_leave_world
                    (quiet_env (Ok saturday_11_00_00)) empty_world)).
    reflexivity.
  - apply (proj1 (proj2 (gated_actions_leave_world
                    (quiet_env (Ok monday_10_15_00)) empty_world))).
    reflexivity.
Defined.

(** ** News sentiment *)

Lemma scan_articles_values (env : Env) (items : list json) (s : string) :
  scan_articles env items = Ok (Some s) -> s = "negative" \/ s = "positive".
Proof.
  induction items as [| article rest IH]; cbn; [discriminate |].
  destruct (dict_get article "title" (JStr "")) as [t | e]; [| discriminate].
  destruct (py_lower (str_lower env) t) as [title | e]; [| discriminate].
  destruct (contains "bankruptcy" title || contains "dilution" title).
  - intros H. left. congruence.
  - destruct (contains "record revenue" title
              || contains "strong earnings" title).
    + intros H. right. congruence.
    + exact IH.
Qed.

Lemma sentiment_query_values (env : Env) (symbol s : string) :
  sentiment_query env symbol = Ok s ->
  s = "negative" \/ s = "positive" \/ s = "neutral".
Proof.
  unfold sentiment_query.
  destruct (requests_get env (news_url env symbol)) as [r | e]; [| discriminate].
  destruct (status_code r =? 200); [| intros H; right; right; congruence].
  destruct (response_json r) as [data | e]; [| discriminate].
  destruct (dict_get data "data" (JArr [])) as [articles | e]; [| discriminate].
  destruct (py_iter articles) as [items | e]; [| discriminate].
  destruct (scan_articles env items) as [[s' |] | e] eqn:Hscan; [| | discriminate].
  - intros H. apply Ok_inj in H. subst s'.
    destruct (scan_articles_values _ _ _ Hscan); auto.
  - intros H. right; right; congruence.
Qed.

(** [fetch_news_sentiment] returns what the query computes and leaves the
    world alone; when the query raises it logs and returns "neutral". *)
Lemma fetch_news_sentiment_cases (env : Env) (symbol : string) (w : World) :
  fetch_news_sentiment env symbol w =
    match sentiment_query env symbol with
    | Ok s => (Ok s, w)
    | Raise e =>
        (Ok "neutral",
         add_log ("❌ خطأ في تحليل الأخبار لـ " ++ symbol ++ ": " ++ exn_text e) w)
    end.
Proof.
  unfold fetch_news_sentiment, sentiment_query, try_except, bind, lift, ret, log.
  destruct (requests_get env (news_url env symbol)) as [r | e]; [| reflexivity].
  destruct (status_code r =? 200); [| reflexivity].
  destruct (response_json r) as [data | e]; [| reflexivity].
  destruct (dict_get data "data" (JArr [])) as [articles | e]; [| reflexivity].
  destruct (py_iter articles) as [items | e]; [| reflexivity].
  destruct (scan_articles env items) as [[s' |] | e]; reflexivity.
Qed.

(** C9.  For every symbol and every outcome of the news query,
    [fetch_news_sentiment] returns normally one of "negative",
    "positive", "neutral", with files and alerts untouched.  It returns
    "neutral" in every failure case: when [requests.get] raises, when the
    status is not 200, when [response.json()] raises, when the body is
    not a dict, when its ["data"] cannot be iterated, and when the loop
    over the articles raises.  Conversely, an answer other than "neutral"
    is returned only when every step succeeded and the loop itself
    returned it. *)
Theorem fetch_news_sentiment_total (env : Env) (symbol : string) (w : World) :
  (exists s w',
     fetch_news_sentiment env symbol w = (Ok s, w') /\
     (s = "negative" \/ s = "positive" \/ s = "neutral") /\
     fs w' = fs w /\ alerts w' = alerts w) /\
  (forall e, requests_get env (news_url env symbol) = Raise e ->
     fst (fetch_news_sentiment env symbol w) = Ok "neutral") /\
  (forall r, requests_get env (news_url env symbol) = Ok r ->
     status_code r <> 200 ->
     fetch_news_sentiment env symbol w = (Ok "neutral", w)) /\
  (forall r e, requests_get env (news_url env symbol) = Ok r ->
     response_json r = Raise e ->
     fst (fetch_news_sentiment env symbol w) = Ok "neutral") /\
  (forall r data e, requests_get env (news_url env symbol) = Ok r ->
     response_json r = Ok data ->
     dict_get data "data" (JArr []) = Raise e ->
     fst (fetch_news_sentiment env symbol w) = Ok "neutral") /\
  (forall r data articles e, requests_get env (news_url env symbol) = Ok r ->
     response_json r = Ok data ->
     dict_get data "data" (JArr []) = Ok articles ->
     py_iter articles = Raise e ->
     fst (fetch_news_sentiment env symbol w) = Ok "neutral") /\
  (forall r data articles items e,
     requests_get env (news_url env symbol) = Ok r ->
     response_json r = Ok data ->
     dict_get data "data" (JArr []) = Ok articles ->
     py_iter articles = Ok items ->
     scan_articles env items = Raise e ->
     fst (fetch_news_sentiment env symbol w) = Ok "neutral") /\
  (forall s, fst (fetch_news_sentiment env symbol w) = Ok s ->
     s <> "neutral" ->
     exists r data articles items,
       requests_get env (news_url env symbol) = Ok r /\
       status_code r = 200 /\
       response_json r = Ok data /\
       dict_get data "data" (JArr []) = Ok articles /\
       py_iter articles = Ok items /\
       scan_articles env items = Ok (Some s)).
Proof.
  rewrite fetch_news_sentiment_cases.
  split; [| split; [| split; [| split; [| split; [| split; [| split]]]]]].
  - destruct (sentiment_query env symbol) as [s | e] eqn:Hq.
    + exists s, w. repeat split. eapply sentiment_query_values, Hq.
    + eexists _, _. split; [reflexivity |]. repeat split. auto.
  - intros e He. unfold sentiment_query. rewrite He. reflexivity.
  - intros r Hr Hst. unfold sentiment_query. rewrite Hr.
    destruct (Z.eqb_spec (status_code r) 200); [contradiction | reflexivity].
  - intros r e Hr He. unfold sentiment_query. rewrite Hr, He.
    destruct (status_code r =? 200); reflexivity.
  - intros r data e Hr Hd He. unfold sentiment_query. rewrite Hr, Hd, He.
    destruct (status_code r =? 200); reflexivity.
  - intros r data articles e Hr Hd Ha He. unfold sentiment_query.
    rewrite Hr, Hd, Ha, He. destruct (status_code r =? 200); reflexivity.
  - intros r data articles items e Hr Hd Ha Hi He. unfold sentiment_query.
    rewrite Hr, Hd, Ha, Hi, He. destruct (status_code r =? 200); reflexivity.
  - unfold sentiment_query.
    destruct (requests_get env (news_url env symbol)) as [r | e] eqn:Hr;
      [| cbn; intros s Hs Hn; apply Ok_inj in Hs; congruence].
    destruct (Z.eqb_spec (status_code r) 200) as [Hst | Hst];
      [| cbn; intros s Hs Hn; apply Ok_inj in Hs; congruence].
    destruct (response_json r) as [data | e] eqn:Hd;
      [| cbn; intros s Hs Hn; apply Ok_inj in Hs; congruence].
    destruct (dict_get data "data" (JArr [])) as [articles | e] eqn:Ha;
      [| cbn; intros s Hs Hn; apply Ok_inj in Hs; congruence].
    destruct (py_iter articles) as [items | e] eqn:Hi;
      [| cbn; intros s Hs Hn; apply Ok_inj in Hs; congruence].
    destruct (scan_articles env items) as [[s' |] | e] eqn:Hscan;
      cbn; intros s Hs Hn; apply Ok_inj in Hs; try congruence.
    subst s'. exists r, data, articles, items. repeat split; assumption.
Qed.

Lemma fetch_news_sentiment_total_witness :
  fst (fetch_news_sentiment (news_env news_down) "ACME" empty_world)
    = Ok "neutral" /\
  fetch_news_sentiment (news_env news_unavailable) "ACME" empty_world
    = (Ok "neutral", empty_world) /\
  fst (fetch_news_sentiment (news_env news_malformed) "ACME" empty_world)
    = Ok "neutral" /\
  fst (fetch_news_sentiment (news_env news_not_a_dict) "ACME" empty_world)
    = Ok "neutral" /\
  fst (fetch_news_sentiment (news_env news_data_not_a_list) "ACME" empty_world)
    = Ok "neutral" /\
  fst (fetch_news_sentiment (news_env news_article_without_text) "ACME"
         empty_world)
    = Ok "neutral".
Proof.
  split; [| split; [| split; [| split; [| split]]]].
  - apply (proj1 (proj2 (fetch_news_sentiment_total
                   (news_env news_down) "ACME" empty_world))
             (Exception "connection refused")).
    reflexivity.
  - apply (proj1 (proj2 (proj2 (fetch_news_sentiment_total
                   (news_env news_unavailable) "ACME" empty_world)))
             (mkResponse 503 (Raise (Exception "Expecting value")))).
    + reflexivity.
    + cbn. lia.
  - apply (proj1 (proj2 (proj2 (proj2 (fetch_news_sentiment_total
                   (news_env news_malformed) "ACME" empty_world))))
             (mkResponse 200 (Raise (Exception "Expecting value")))
             (Exception "Expecting value")); reflexivity.
  - apply (proj1 (proj2 (proj2 (proj2 (proj2 (fetch_news_sentiment_total
                   (news_env news_not_a_dict) "ACME" empty_world)))))
             (mkResponse 200 (Ok (JArr []))) (JArr [])
             (Exception "object has no attribute 'get'")); reflexivity.
  - apply (proj1 (proj2 (proj2 (proj2 (proj2 (proj2
                   (fetch_news_sentiment_total
                      (news_env news_data_not_a_list) "ACME" empty_world))))))
             (mkResponse 200 (Ok (JObj [("data", JNum 3)])))
             (JObj [("data", JNum 3)]) (JNum 3)
             (Exception "object is not iterable")); reflexivity.
  - apply (proj1 (proj2 (proj2 (proj2 (proj2 (proj2 (proj2
                   (fetch_news_sentiment_total
                      (news_env news_article_without_text) "ACME"
                      empty_world)))))))
             (mkResponse 200
                (Ok (JObj [("data", JArr [JObj [("title", JNull)]])])))
             (JObj [("data", JArr [JObj [("title", JNull)]])])
             (JArr [JObj [("title", JNull)]]) [JObj [("title", JNull)]]
             (Exception "object has no attribute 'lower'")); reflexivity.
Defined.

Example fetch_news_sentiment_positive :
  fetch_news_sentiment (news_env (fun _ => headline "ACME: STRONG EARNINGS again"))
    "ACME" empty_world = (Ok "positive", empty_world).
Proof. reflexivity. Qed.

Example fetch_news_sentiment_negative_first :
  fetch_news_sentiment
    (news_env (fun _ => headline "Record revenue, then bankruptcy"))
    "ACME" empty_world = (Ok "negative", empty_world).
Proof. reflexivity. Qed.

(** ** The positive-news watcher *)

Lemma fetch_news_sentiment_value (env : Env) (symbol : string) (w : World) :
  exists w',
    fetch_news_sentiment env symbol w = (Ok (sentiment_of env symbol), w') /\
    fs w' = fs w /\ alerts w' = alerts w /\ tasks w' = tasks w.
Proof.
  rewrite fetch_news_sentiment_cases. unfold sentiment_of.
  destruct (sentiment_query env symbol) as [s | e]; eexists; repeat split.
Qed.

Lemma scan_stocks_spec (env : Env) (old : list string) (stocks : list stock) :
  send_keeps_watchlist env ->
  forall (acc : list stock) (w : World) r w',
    scan_stocks env old stocks acc w = (r, w') ->
    fs w' !! POSITIVE_NEWS_FILE = fs w !! POSITIVE_NEWS_FILE /\
    (forall l, r = Ok l -> l = (acc ++ new_positive env old stocks)%list) /\
    (send_returns env -> r = Ok (acc ++ new_positive env old stocks)%list).
Proof.
  intros Hkeep. induction stocks as [| st rest IH]; intros acc w r w' Hrun.
  - cbn in Hrun. apply pair_equal_spec in Hrun as [<- <-].
    cbn. rewrite app_nil_r. repeat split. congruence.
  - cbn [scan_stocks] in Hrun. unfold bind at 1 in Hrun.
    destruct (fetch_news_sentiment_value env (symbol st) w)
      as (w1 & Hfetch & Hfs1 & _ & _).
    rewrite Hfetch in Hrun.
    cbn [new_positive List.filter]. fold (new_positive env old rest).
    destruct (String.eqb (sentiment_of env (symbol st)) "positive"
              && not_in (symbol st) old).
    + unfold bind at 1 in Hrun.
      match type of Hrun with
      | context [send_telegram_message env ?m w1] =>
          pose proof (Hkeep m w1) as Hk;
          destruct (send_telegram_message env m w1) as [[[] | e] w2] eqn:Hsend
      end; cbn [fst snd] in *.
      * destruct (IH _ _ _ _ Hrun) as (Hfs & Hval & Hok).
        rewrite <- app_assoc in Hval, Hok. cbn [app] in Hval, Hok.
        split; [rewrite Hfs, Hk, Hfs1; reflexivity |].
        split; assumption.
      * apply pair_equal_spec in Hrun as [<- <-].
        split; [rewrite Hk, Hfs1; reflexivity |].
        split; [discriminate |].
        intros Hret. specialize (Hret
          ("📢 سهم جديد بأخبار إيجابية:" ++ String "010" "📈 " ++ symbol st
          ++ String "010" "✅ تم رصده في السوق") w1).
        rewrite Hsend in Hret. discriminate.
    + destruct (IH _ _ _ _ Hrun) as (Hfs & Hval & Hok).
      split; [rewrite Hfs, Hfs1; reflexivity |]. split; assumption.
Qed.

Lemma try_except_bind {A B : Type} (m : M A) (k : A -> M B)
    (h : exn -> M B) (w : World) :
  try_except (bind m k) h w =
    match m w with
    | (Ok a, w1) => try_except (k a) h w1
    | (Raise e, w1) => h e w1
    end.
Proof.
  unfold try_except, bind. destruct (m w) as [[a | e] w1]; reflexivity.
Qed.

(** The end of the watcher's [try] body, from the loop on. *)
Lemma watch_store_spec (env : Env) (old : list string) (stocks : list stock)
    (w1 w' : World) (r : result unit) :
  send_keeps_watchlist env ->
  try_except
    (positive_stocks <- scan_stocks env old stocks [] ;;
     match positive_stocks with
     | _ :: _ =>
         json_dump positive_stocks POSITIVE_NEWS_FILE ;;
         log ("✅ تم حفظ " ++ pretty (length positive_stocks)
              ++ " سهم في قائمة الأخبار الإيجابية.")
     | [] => log "⚠️ لا توجد أسهم إيجابية حالياً."
     end)
    (fun e => log ("❌ فشل في مراقبة الأخبار الإيجابية: " ++ exn_text e)) w1
  = (r, w') ->
  r = Ok tt /\
  (fs w' !! POSITIVE_NEWS_FILE = fs w1 !! POSITIVE_NEWS_FILE \/
   new_positive env old stocks <> [] /\
   fs w' !! POSITIVE_NEWS_FILE
     = Some (StockList (new_positive env old stocks))) /\
  (new_positive env old stocks = [] ->
   fs w' !! POSITIVE_NEWS_FILE = fs w1 !! POSITIVE_NEWS_FILE) /\
  (new_positive env old stocks <> [] -> send_returns env ->
   fs w' !! POSITIVE_NEWS_FILE
     = Some (StockList (new_positive env old stocks))).
Proof.
  intros Hsend Hrun. rewrite try_except_bind in Hrun.
  destruct (scan_stocks env old stocks [] w1) as [[ps | e] w2] eqn:Hscan;
    destruct (scan_stocks_spec env old stocks Hsend _ _ _ _ Hscan)
      as (Hfs & Hval & Hret); cbn [app] in Hval, Hret.
  - specialize (Hval ps eq_refl). subst ps.
    destruct (new_positive env old stocks) as [| st np] eqn:Hnp.
    + apply pair_equal_spec in Hrun as [<- <-]. cbn [add_log fs].
      split; [reflexivity |]. split; [left; exact Hfs |].
      split; [intros _; exact Hfs | intros Hne; contradiction].
    + apply pair_equal_spec in Hrun as [<- <-]. cbn [add_log set_fs fs].
      rewrite lookup_insert_eq.
      split; [reflexivity |]. split; [right; split; [discriminate | reflexivity] |].
      split; [discriminate | reflexivity].
  - apply pair_equal_spec in Hrun as [<- <-]. cbn [add_log fs].
    split; [reflexivity |]. split; [left; exact Hfs |].
    split; [intros _; exact Hfs |].
    intros _ Hr. specialize (Hret Hr). discriminate.
Qed.

(** C10.  Provided the stock feed and the Telegram transport leave the
    watchlist file alone, one run of the watcher returns normally and
    either leaves the content of the watchlist file as it was, or
    replaces it by exactly the fetched stocks that have positive
    sentiment and a symbol absent from the stored list, of which there is
    then at least one.  With no such stock the content is unchanged; with
    one (and every alert delivered) the file holds exactly those stocks. *)
Theorem watch_positive_news_file (env : Env) (w w1 w' : World)
    (fetched : result (list stock)) (r : result unit) :
  send_keeps_watchlist env ->
  fetch_keeps_watchlist env ->
  fetch_stocks_from_tradingview env
    (add_log "🟢 فحص الأسهم ذات الأخبار الإيجابية..." w) = (fetched, w1) ->
  watch_positive_news_stocks env w = (r, w') ->
  r = Ok tt /\
  (fs w' !! POSITIVE_NEWS_FILE = fs w !! POSITIVE_NEWS_FILE \/
   exists stocks old,
     fetched = Ok stocks /\ old_symbols_of w = Some old /\
     new_positive env old stocks <> [] /\
     fs w' !! POSITIVE_NEWS_FILE
       = Some (StockList (new_positive env old stocks))) /\
  (forall stocks old,
     fetched = Ok stocks -> old_symbols_of w = Some old ->
     new_positive env old stocks = [] ->
     fs w' !! POSITIVE_NEWS_FILE = fs w !! POSITIVE_NEWS_FILE) /\
  (forall stocks old,
     fetched = Ok stocks -> old_symbols_of w = Some old ->
     new_positive env old stocks <> [] -> send_returns env ->
     fs w' !! POSITIVE_NEWS_FILE
       = Some (StockList (new_positive env old stocks))).
Proof.
  intros Hsend Hfeed Hfetch Hrun.
  pose proof (Hfeed (add_log "🟢 فحص الأسهم ذات الأخبار الإيجابية..." w)) as Hf1.
  rewrite Hfetch in Hf1. cbn [fst snd add_log fs] in Hf1.
  unfold watch_positive_news_stocks in Hrun.
  unfold bind at 1 in Hrun. cbn [log] in Hrun.
  rewrite try_except_bind, Hfetch in Hrun.
  destruct fetched as [stocks | e].
  2:{ apply pair_equal_spec in Hrun as [<- <-]. cbn [log add_log fs snd].
      split; [reflexivity |]. split; [left; exact Hf1 |].
      split; intros; discriminate. }
  rewrite try_except_bind in Hrun. unfold path_exists at 1 in Hrun.
  unfold old_symbols_of. rewrite <- Hf1.
  destruct (fs w1 !! POSITIVE_NEWS_FILE) as [[l | raw] |] eqn:Hold.
  - rewrite bool_decide_eq_true_2 in Hrun by eauto.
    rewrite try_except_bind in Hrun. unfold bind at 1 in Hrun.
    unfold json_load at 1 in Hrun. rewrite Hold in Hrun. cbn [ret] in Hrun.
    destruct (watch_store_spec env _ _ _ _ _ Hsend Hrun)
      as (Hr & Hor & Hnone & Hsome).
    rewrite Hold in *.
    split; [exact Hr |]. split.
    + destruct Hor as [Hsame | [Hne Hnew]]; [left; exact Hsame |].
      right. eexists _, _. repeat split; eassumption.
    + split; intros stocks0 old0 Hs Ho; apply Ok_inj in Hs;
        injection Ho as <-; subst stocks0; assumption.
  - rewrite bool_decide_eq_true_2 in Hrun by eauto.
    rewrite try_except_bind in Hrun. unfold bind at 1 in Hrun.
    unfold json_load at 1 in Hrun. rewrite Hold in Hrun.
    apply pair_equal_spec in Hrun as [<- <-]. cbn [log add_log fs snd].
    split; [reflexivity |]. split; [left; exact Hold |].
    split; intros; discriminate.
  - rewrite bool_decide_eq_false_2 in Hrun by (intros [? ?]; discriminate).
    rewrite try_except_bind in Hrun. cbn [ret] in Hrun.
    destruct (watch_store_spec env _ _ _ _ _ Hsend Hrun)
      as (Hr & Hor & Hnone & Hsome).
    rewrite Hold in *.
    split; [exact Hr |]. split.
    + destruct Hor as [Hsame | [Hne Hnew]]; [left; exact Hsame |].
      right. eexists _, _. repeat split; eassumption.
    + split; intros stocks0 old0 Hs Ho; apply Ok_inj in Hs;
        injection Ho as <-; subst stocks0; assumption.
Qed.

Lemma watch_positive_news_file_witness :
  fs (snd (watch_positive_news_stocks watch_env watch_world))
    !! POSITIVE_NEWS_FILE
  = Some (StockList [good_stock]).
Proof.
  assert (Hs : send_keeps_watchlist watch_env) by (intros m w; reflexivity).
  assert (Hf : fetch_keeps_watchlist watch_env) by (intros w; reflexivity).
  destruct (watch_positive_news_file watch_env watch_world _ _ _ _ Hs Hf
              (surjective_pairing _) (surjective_pairing _))
    as (_ & _ & _ & Hsome).
  apply (Hsome [good_stock; oldie_stock; dull_stock] ["OLDIE"]).
  - reflexivity.
  - reflexivity.
  - discriminate.
  - intros m w. reflexivity.
Defined.

Example watch_positive_news_run :
  watch_positive_news_stocks watch_env watch_world
  = (Ok tt,
     mkWorld {[ POSITIVE_NEWS_FILE := StockList [good_stock] ]}
       ["📢 سهم جديد بأخبار إيجابية:" ++ String "010" "📈 GOOD"
        ++ String "010" "✅ تم رصده في السوق"]
       ["🟢 فحص الأسهم ذات الأخبار الإيجابية...";
        "✅ تم حفظ 1 سهم في قائمة الأخبار الإيجابية."] []).
Proof. vm_compute. reflexivity. Qed.

(** ** Backup, then overwrite *)

Lemma backup_spec (name name_old : string) (w : World) :
  backup name name_old w =
    (Ok tt,
     match fs w !! name with
     | Some c => set_fs (fun m => <[name_old := c]> m) w
     | None => w
     end).
Proof.
  unfold backup, bind, path_exists, shutil_copy.
  destruct (fs w !! name) as [c |] eqn:Hname.
  - rewrite bool_decide_eq_true_2 by eauto. rewrite Hname. reflexivity.
  - rewrite bool_decide_eq_false_2 by (intros [? ?]; discriminate).
    reflexivity.
Qed.

Lemma keeps_file_seq (a b : M unit) (p : string) :
  keeps_file a p -> keeps_file b p -> keeps_file (a ;; b) p.
Proof.
  intros Ha Hb w. unfold bind. specialize (Ha w).
  destruct (a w) as [[[] | e] w1]; cbn [snd] in *.
  - rewrite Hb. exact Ha.
  - exact Ha.
Qed.

(** From the writer on: the snapshot holds the new data and the backup
    is what it was when the writer started. *)
Lemma refresh_tail_spec (name name_old : string) (data : content)
    (writer post : M unit) (done : string) (failed : exn -> string)
    (w0 w' : World) (r : result unit) :
  writes_snapshot writer name name_old data ->
  keeps_file post name -> keeps_file post name_old ->
  try_except (writer ;; log done ;; post) (fun e => log (failed e)) w0
    = (r, w') ->
  r = Ok tt /\ fs w' !! name = Some data /\
  fs w' !! name_old = fs w0 !! name_old.
Proof.
  intros Hwrite Hpost Hpost_old Hrun.
  rewrite try_except_bind in Hrun.
  destruct (Hwrite w0) as (w1 & Hw & Hname & Hold). rewrite Hw in Hrun.
  rewrite try_except_bind in Hrun. cbn [log] in Hrun.
  unfold try_except in Hrun.
  pose proof (Hpost (add_log done w1)) as Hp.
  pose proof (Hpost_old (add_log done w1)) as Hpo.
  destruct (post (add_log done w1)) as [[[] | e] w2];
    apply pair_equal_spec in Hrun as [<- <-];
    cbn [snd log add_log fs] in *;
    (split; [reflexivity |]); split; congruence.
Qed.

Lemma backed_up_after_backup (name name_old : string) (data : content)
    (w w0 w' : World) :
  fs w0 !! name_old
    = match fs w !! name with Some c => Some c | None => fs w !! name_old end ->
  fs w' !! name = Some data ->
  fs w' !! name_old = fs w0 !! name_old ->
  backed_up name name_old data w w'.
Proof.
  intros H0 Hname Hold. split; [exact Hname |].
  rewrite Hold, H0. split.
  - intros c Hc. rewrite Hc. reflexivity.
  - intros Hc. rewrite Hc. reflexivity.
Qed.

(** C4 (as amended).  With the market open, and collaborators that
    write the new data to [name] and otherwise leave [name] and
    [name_old] alone, a refresh returns normally with the new data in
    [name] and, in [name_old], what [name] held before the call; when
    [name] did not exist before the call, [name_old] is left as it was
    (absent only if it was absent).  This holds for the pump list, the
    high-movement list and the market snapshot. *)
Theorem refresh_backs_up_then_overwrites (env : Env) (data : content)
    (w : World) :
  is_market_open (ny_now env) = Ok true ->
  (forall a b c p, keeps_file (compare_stock_lists_and_alert env a b c) p) ->
  (writes_snapshot (detect_pump_stocks env)
     "data/pump_stocks.json" "data/pump_stocks_old.json" data ->
   fst (update_pump_stocks env w) = Ok tt /\
   backed_up "data/pump_stocks.json" "data/pump_stocks_old.json" data
     w (snd (update_pump_stocks env w))) /\
  (writes_snapshot (analyze_high_movement_stocks env)
     "data/high_movement_stocks.json" "data/high_movement_stocks_old.json"
     data ->
   fst (update_high_movement_stocks env w) = Ok tt /\
   backed_up "data/high_movement_stocks.json"
     "data/high_movement_stocks_old.json" data
     w (snd (update_high_movement_stocks env w))) /\
  (writes_snapshot (analyze_market env)
     "data/top_stocks.json" "data/top_stocks_old.json" data ->
   (forall p, keeps_file (check_cross_list_movements env) p) ->
   fst (update_market_data env w) = Ok tt /\
   backed_up "data/top_stocks.json" "data/top_stocks_old.json" data
     w (snd (update_market_data env w))).
Proof.
  intros Hopen Hcmp. split; [| split].
  - intros Hwrite.
    destruct (update_pump_stocks env w) as [r w'] eqn:Hrun.
    unfold update_pump_stocks, bind at 1, lift in Hrun.
    rewrite Hopen in Hrun. cbn [negb] in Hrun.
    unfold bind at 1 in Hrun. cbn [log] in Hrun.
    rewrite try_except_bind, backup_spec in Hrun.
    eapply refresh_tail_spec in Hrun as (Hr & Hname & Hold);
      [| exact Hwrite | apply Hcmp | apply Hcmp].
    split; [exact Hr |].
    eapply backed_up_after_backup; [| exact Hname | exact Hold].
    cbn [add_log fs].
    destruct (fs w !! "data/pump_stocks.json") as [c |];
      cbn [set_fs add_log fs]; [apply lookup_insert_eq | reflexivity].
  - intros Hwrite.
    destruct (update_high_movement_stocks env w) as [r w'] eqn:Hrun.
    unfold update_high_movement_stocks, bind at 1, lift in Hrun.
    rewrite Hopen in Hrun. cbn [negb] in Hrun.
    unfold bind at 1 in Hrun. cbn [log] in Hrun.
    rewrite try_except_bind, backup_spec in Hrun.
    eapply refresh_tail_spec in Hrun as (Hr & Hname & Hold);
      [| exact Hwrite | apply Hcmp | apply Hcmp].
    split; [exact Hr |].
    eapply backed_up_after_backup; [| exact Hname | exact Hold].
    cbn [add_log fs].
    destruct (fs w !! "data/high_movement_stocks.json") as [c |];
      cbn [set_fs add_log fs]; [apply lookup_insert_eq | reflexivity].
  - intros Hwrite Hcross.
    destruct (update_market_data env w) as [r w'] eqn:Hrun.
    unfold update_market_data, bind at 1, lift in Hrun.
    rewrite Hopen in Hrun. cbn [negb] in Hrun.
    unfold bind at 1 in Hrun. cbn [log] in Hrun.
    rewrite try_except_bind, backup_spec in Hrun.
    rewrite try_except_bind, backup_spec in Hrun.
    rewrite try_except_bind, backup_spec in Hrun.
    eapply refresh_tail_spec in Hrun as (Hr & Hname & Hold);
      [| exact Hwrite
       | apply keeps_file_seq; [apply Hcmp | apply Hcross]
       | apply keeps_file_seq; [apply Hcmp | apply Hcross]].
    split; [exact Hr |].
    eapply backed_up_after_backup; [| exact Hname | exact Hold].
    repeat match goal with
    | |- context [match ?o with Some _ => _ | None => _ end] =>
        destruct o; cbn [set_fs add_log fs]
    end;
    rewrite ?(lookup_insert_ne (M := gmap string))  by discriminate;
    rewrite ?lookup_insert_eq; reflexivity.
Qed.

Lemma refresh_backs_up_then_overwrites_witness :
  backed_up "data/pump_stocks.json" "data/pump_stocks_old.json"
    (StockList [good_stock])
    pump_world (snd (update_pump_stocks refresh_env pump_world)).
Proof.
  refine (proj2 (proj1 (refresh_backs_up_then_overwrites refresh_env
            (StockList [good_stock]) pump_world _ _) _)).
  - reflexivity.
  - intros a b c p w. reflexivity.
  - intros w. eexists. split; [reflexivity |]. split.
    + apply lookup_insert_eq.
    + apply lookup_insert_ne. discriminate.
Defined.

Example refresh_rotates_pump_list :
  fs (snd (update_pump_stocks refresh_env pump_world))
    !! "data/pump_stocks_old.json" = Some (StockList [dull_stock]) /\
  fs (snd (update_pump_stocks refresh_env pump_world))
    !! "data/pump_stocks.json" = Some (StockList [good_stock]).
Proof. split; vm_compute; reflexivity. Qed.

(** C4, as stated, fails in its last part: when the snapshot is missing
    but a backup from an earlier generation is still there, the refresh
    leaves that backup in place; it is not absent after the call. *)
Lemma stale_backup_survives_refresh :
  fs stale_world !! "data/pump_stocks.json" = None /\
  fs (snd (update_pump_stocks refresh_env stale_world))
    !! "data/pump_stocks_old.json" = Some (StockList [oldie_stock]) /\
  fs (snd (update_pump_stocks refresh_env stale_world))
    !! "data/pump_stocks_old.json" <> None.
Proof.
  split; [vm_compute; reflexivity |].
  assert (H : fs (snd (update_pump_stocks refresh_env stale_world))
                !! "data/pump_stocks_old.json" = Some (StockList [oldie_stock]))
    by (vm_compute; reflexivity).
  split; [exact H | rewrite H; discriminate].
Qed.

(** ** Market weakness *)

Lemma Qltb_lt (a b : Q) : Qltb a b = true <-> (a < b)%Q.
Proof. unfold Qltb, Qlt. apply Z.ltb_lt. Qed.

Lemma weak_threshold (prev today : Q) :
  (0 < prev)%Q ->
  ((today - prev) / prev * inject_Z 100 < inject_Z (-1))%Q
  <-> down_more_than_one_percent prev today.
Proof.
  intros Hp. unfold down_more_than_one_percent.
  rewrite <- (Qmult_lt_r _ _ prev Hp).
  assert (E : ((today - prev) / prev * inject_Z 100 * prev
               == (today - prev) * inject_Z 100)%Q).
  { field. intros H. rewrite H in Hp. apply (Qlt_irrefl 0), Hp. }
  rewrite E. unfold inject_Z. split; intros H; lra.
Qed.

Lemma iloc_last_two (older : list Q) (prev today : Q) :
  iloc (older ++ [prev; today])%list (-2) = Ok prev /\
  iloc (older ++ [prev; today])%list (-1) = Ok today.
Proof.
  unfold iloc. rewrite length_app. cbn [length].
  rewrite Nat2Z.inj_add. cbn [Z.ltb Z.compare].
  set (n := Z.of_nat (length older)).
  assert (Hn : 0 <= n) by apply Nat2Z.is_nonneg.
  replace (n + Z.of_nat 2 + -2) with n by lia.
  replace (n + Z.of_nat 2 + -1) with (n + 1) by lia.
  assert (H2 : (0 <=? n) && (n <? n + Z.of_nat 2) = true) by (zbool; lia).
  assert (H1 : (0 <=? n + 1) && (n + 1 <? n + Z.of_nat 2) = true)
    by (zbool; lia).
  rewrite H1, H2. subst n.
  rewrite Nat2Z.id.
  replace (Z.to_nat (Z.of_nat (length older) + 1)) with (length older + 1)%nat
    by lia.
  rewrite !lookup_app_r by lia.
  rewrite Nat.sub_diag.
  replace (length older + 1 - length older)%nat with 1%nat by lia.
  split; reflexivity.
Qed.

(** C7.  With at least two closes and a positive prior close,
    [is_market_weak] returns true exactly when the latest close is down
    by more than 1% of the prior close; with fewer than two closes it
    returns false; and when fetching the history raises, it hands the
    error to [log_action] and returns false.  It never raises (the
    logger returning normally). *)
Theorem is_market_weak_spec (env : Env) (w : World) :
  (forall (older : list Q) (prev today : Q),
     spy_history env = Ok (older ++ [prev; today])%list -> (0 < prev)%Q ->
     exists b, is_market_weak env w = (Ok b, w) /\
               (b = true <-> down_more_than_one_percent prev today)) /\
  (forall hist,
     spy_history env = Ok hist -> (length hist < 2)%nat ->
     is_market_weak env w = (Ok false, w)) /\
  (forall e,
     spy_history env = Raise e -> log_action_returns env ->
     is_market_weak env w
       = (Ok false,
          snd (log_action env ("❌ خطأ في تحليل SPY: " ++ exn_text e)
                 "error" w))).
Proof.
  split; [| split].
  - intros older prev today Hhist Hp.
    destruct (iloc_last_two older prev today) as [Hprev Htoday].
    unfold is_market_weak, bind at 1, try_except, bind at 1, lift.
    rewrite Hhist.
    assert (Hlen : (2 <=? length (older ++ [prev; today])%list)%nat = true).
    { apply Nat.leb_le. rewrite length_app. cbn. lia. }
    rewrite Hlen. unfold bind. rewrite Hprev, Htoday. cbn [ret].
    eexists. split; [reflexivity |].
    rewrite Qltb_lt. apply weak_threshold, Hp.
  - intros hist Hhist Hlen.
    unfold is_market_weak, bind at 1, try_except, bind at 1, lift.
    rewrite Hhist.
    assert (Hshort : (2 <=? length hist)%nat = false)
      by (apply Nat.leb_gt; exact Hlen).
    rewrite Hshort. reflexivity.
  - intros e Hhist Hlog.
    unfold is_market_weak, bind at 1, try_except, bind at 1, lift.
    rewrite Hhist. unfold bind.
    specialize (Hlog ("❌ خطأ في تحليل SPY: " ++ exn_text e) "error" w).
    destruct (log_action env ("❌ خطأ في تحليل SPY: " ++ exn_text e) "error" w)
      as [[[] | e'] w1]; cbn [fst] in Hlog; [reflexivity | discriminate].
Qed.

Lemma is_market_weak_spec_witness :
  (exists b,
     is_market_weak (spy_env (Ok [400; 395]%Q)) empty_world
       = (Ok b, empty_world) /\
     (b = true <-> down_more_than_one_percent 400 395)) /\
  is_market_weak (spy_env (Ok [400]%Q)) empty_world = (Ok false, empty_world) /\
  is_market_weak (spy_env (Raise quote_failure)) empty_world
    = (Ok false,
       add_log ("❌ خطأ في تحليل SPY: " ++ "No data found for SPY") empty_world).
Proof.
  split; [| split].
  - apply (proj1 (is_market_weak_spec (spy_env (Ok [400; 395]%Q)) empty_world)
             [] 400%Q 395%Q); reflexivity.
  - apply (proj1 (proj2 (is_market_weak_spec (spy_env (Ok [400]%Q)) empty_world))
             [400%Q]); [reflexivity | cbn; lia].
  - apply (proj2 (proj2 (is_market_weak_spec
                           (spy_env (Raise quote_failure)) empty_world))
             quote_failure); [reflexivity | intros m level w; reflexivity].
Defined.

Example is_market_weak_drop :
  is_market_weak (spy_env (Ok [400; 395]%Q)) empty_world = (Ok true, empty_world).
Proof. reflexivity. Qed.

Example is_market_weak_exactly_one_percent :
  is_market_weak (spy_env (Ok [400; 396]%Q)) empty_world = (Ok false, empty_world).
Proof. reflexivity. Qed.

(** ** The daily job *)

(** *** The order in which due jobs are called *)















(** *** Counting the trainings of a day *)










Example overnight_life_trainings :
  DailyJob.trainings overnight_life = [86340; 86410].
Proof. vm_compute. reflexivity. Qed.

(** When 00:00 comes after the job of line 246 has become due, that
    job is called first and ends the dispatch loop: the 00:00 job does
    not fire. *)
Example preempted_life_trainings :
  DailyJob.trainings preempted_life = [86330].
Proof. vm_compute. reflexivity. Qed.


(** * Further properties of main.py *)

(** ** Actions that cannot fail *)

Lemma watcher_returns (env : Env) (w : World) :
  exists w', watch_positive_news_stocks env w = (Ok tt, w').
Proof.
  unfold watch_positive_news_stocks, bind at 1. cbn [log].
  apply (try_except_log_returns _
           (fun e => "❌ فشل في مراقبة الأخبار الإيجابية: " ++ exn_text e)).
Qed.

Lemma update_symbols_returns (env : Env) (w : World) :
  exists w', update_symbols env w = (Ok tt, w').
Proof.
  unfold update_symbols, bind at 1. cbn [log].
  apply (try_except_log_returns _
           (fun e => "❌ فشل تحديث الرموز: " ++ exn_text e)).
Qed.

Lemma update_market_data_returns (env : Env) (b : bool) (w : World) :
  is_market_open (ny_now env) = Ok b ->
  exists w', update_market_data env w = (Ok tt, w').
Proof.
  intros Hclock. unfold update_market_data, bind at 1, lift.
  rewrite Hclock. destruct b; cbn [negb].
  - unfold bind at 1. cbn [log].
    apply (try_except_log_returns _
             (fun e => "❌ فشل تحليل السوق: " ++ exn_text e)).
  - eexists. reflexivity.
Qed.

Lemma update_pump_stocks_returns (env : Env) (b : bool) (w : World) :
  is_market_open (ny_now env) = Ok b ->
  exists w', update_pump_stocks env w = (Ok tt, w').
Proof.
  intros Hclock. unfold update_pump_stocks, bind at 1, lift.
  rewrite Hclock. destruct b; cbn [negb].
  - unfold bind at 1. cbn [log].
    apply (try_except_log_returns _
             (fun e => "❌ فشل تحليل الانفجارات: " ++ exn_text e)).
  - eexists. reflexivity.
Qed.

Lemma update_high_movement_stocks_returns (env : Env) (b : bool) (w : World) :
  is_market_open (ny_now env) = Ok b ->
  exists w', update_high_movement_stocks env w = (Ok tt, w').
Proof.
  intros Hclock. unfold update_high_movement_stocks, bind at 1, lift.
  rewrite Hclock. destruct b; cbn [negb].
  - unfold bind at 1. cbn [log].
    apply (try_except_log_returns _
             (fun e => "❌ فشل تحليل الأسهم ذات الحركة العالية: " ++ exn_text e)).
  - eexists. reflexivity.
Qed.

(** X1.  Once the clock has been read, none of the three refresh actions
    raises, whatever the collaborators do; and [update_symbols] never
    raises at all. *)
Theorem refresh_actions_return (env : Env) (b : bool) (w : World) :
  is_market_open (ny_now env) = Ok b ->
  (exists w', update_market_data env w = (Ok tt, w')) /\
  (exists w', update_pump_stocks env w = (Ok tt, w')) /\
  (exists w', update_high_movement_stocks env w = (Ok tt, w')) /\
  (exists w', update_symbols env w = (Ok tt, w')).
Proof.
  intros Hclock. repeat split.
  - eapply update_market_data_returns, Hclock.
  - eapply update_pump_stocks_returns, Hclock.
  - eapply update_high_movement_stocks_returns, Hclock.
  - apply update_symbols_returns.
Qed.

Lemma refresh_actions_return_witness :
  exists w', update_pump_stocks broken_refresh_env empty_world = (Ok tt, w').
Proof.
  refine (proj1 (proj2 (refresh_actions_return broken_refresh_env true
                          empty_world _))).
  reflexivity.
Defined.

(** X2.  The market gate is outside the [try]: when reading the clock
    raises, each gated action raises the same exception, having logged
    nothing and changed nothing. *)
Theorem clock_failure_leaves_gated_actions (env : Env) (e : exn) (w : World) :
  is_market_open (ny_now env) = Raise e ->
  update_market_data env w = (Raise e, w) /\
  update_pump_stocks env w = (Raise e, w) /\
  update_high_movement_stocks env w = (Raise e, w) /\
  send_daily_report_task env w = (Raise e, w).
Proof.
  intros Hclock.
  unfold update_market_data, update_pump_stocks, update_high_movement_stocks,
    send_daily_report_task, bind, lift.
  rewrite Hclock. repeat split.
Qed.

Lemma clock_failure_leaves_gated_actions_witness :
  update_market_data clockless_env empty_world = (Raise clock_failure, empty_world).
Proof.
  refine (proj1 (clock_failure_leaves_gated_actions clockless_env clock_failure
                   empty_world _)).
  reflexivity.
Defined.

(** ** Start-up *)

(** X3.  Started while the market is closed, [main] creates the task for
    [scheduled_tasks], trains the model and skips the three refreshes:
    beyond the training, only the "market closed" line is logged. *)
Theorem main_startup_market_closed (env : Env) (w : World) :
  is_market_open (ny_now env) = Ok false ->
  exists w1,
    daily_model_training env (add_task Coro_scheduled_tasks w) = (Ok tt, w1) /\
    main_startup env w
      = (Ok tt, add_log "⏸️ السوق مغلق - إلغاء التحديث" w1).
Proof.
  intros Hclosed.
  destruct (daily_model_training_returns env (add_task Coro_scheduled_tasks w))
    as [w1 Htrain].
  exists w1. split; [exact Htrain |].
  unfold main_startup, bind at 1, create_task. unfold bind at 1.
  rewrite Htrain.
  unfold update_market_data, update_pump_stocks, update_high_movement_stocks,
    bind, lift.
  rewrite Hclosed. reflexivity.
Qed.

Lemma main_startup_market_closed_witness :
  main_startup closed_env empty_world
  = (Ok tt,
     mkWorld ∅ []
       ["🔁 تدريب يومي للنموذج الذكي...";
        "✅ تم تدريب النموذج اليومي بنجاح.";
        "⏸️ السوق مغلق - إلغاء التحديث"]
       [Coro_scheduled_tasks]).
Proof.
  destruct (main_startup_market_closed closed_env empty_world eq_refl)
    as (w1 & Htrain & Hrun).
  rewrite Hrun. vm_compute in Htrain. injection Htrain as <-. reflexivity.
Defined.

(** X4.  Whatever the collaborators do, start-up returns normally once the
    clock can be read. *)
Theorem main_startup_returns (env : Env) (b : bool) (w : World) :
  is_market_open (ny_now env) = Ok b ->
  exists w', main_startup env w = (Ok tt, w').
Proof.
  intros Hclock. unfold main_startup, bind at 1, create_task.
  unfold bind at 1.
  destruct (daily_model_training_returns env (add_task Coro_scheduled_tasks w))
    as [w1 ->].
  unfold bind at 1.
  destruct (update_market_data_returns env b w1 Hclock) as [w2 ->].
  unfold bind at 1.
  destruct (update_pump_stocks_returns env b w2 Hclock) as [w3 ->].
  eapply update_high_movement_stocks_returns, Hclock.
Qed.

Lemma main_startup_returns_witness :
  exists w', main_startup broken_refresh_env empty_world = (Ok tt, w').
Proof.
  apply (main_startup_returns broken_refresh_env true empty_world).
  reflexivity.
Defined.

(** ** Refreshes that fail, and refreshes in a row *)

Lemma keeps_file_log (m p : string) : keeps_file (log m) p.
Proof. intros w. reflexivity. Qed.

Lemma keeps_file_try_except (body : M unit) (h : exn -> M unit) (p : string) :
  keeps_file body p -> (forall e, keeps_file (h e) p) ->
  keeps_file (try_except body h) p.
Proof.
  intros Hbody Hh w. unfold try_except. specialize (Hbody w).
  destruct (body w) as [[[] | e] w1]; cbn [snd] in *.
  - exact Hbody.
  - rewrite Hh. exact Hbody.
Qed.

(** X5.  The backup is taken before the detector runs.  When the detector
    raises, the pump refresh logs the failure and returns; the comparison
    is not run.  If the detector left the files alone, the backup now
    holds the same list as the snapshot: the generation kept before the
    call is gone although nothing new was produced. *)
Theorem failed_pump_refresh_overwrites_backup
    (env : Env) (e : exn) (w w1 : World) :
  is_market_open (ny_now env) = Ok true ->
  detect_pump_stocks env
    (snd (backup "data/pump_stocks.json" "data/pump_stocks_old.json"
            (add_log "💣 تحليل الانفجارات السعرية..." w)))
    = (Raise e, w1) ->
  update_pump_stocks env w
    = (Ok tt, add_log ("❌ فشل تحليل الانفجارات: " ++ exn_text e) w1) /\
  (fs w1 = fs (snd (backup "data/pump_stocks.json" "data/pump_stocks_old.json"
                      (add_log "💣 تحليل الانفجارات السعرية..." w))) ->
   forall c, fs w !! "data/pump_stocks.json" = Some c ->
     fs w1 !! "data/pump_stocks.json" = Some c /\
     fs w1 !! "data/pump_stocks_old.json" = Some c).
Proof.
  intros Hopen Hdetect. split.
  - unfold update_pump_stocks, bind at 1, lift. rewrite Hopen. cbn [negb].
    unfold bind at 1. cbn [log].
    rewrite try_except_bind.
    rewrite backup_spec in *. cbn [snd] in Hdetect.
    rewrite try_except_bind, Hdetect. reflexivity.
  - intros Hfs c Hc. rewrite Hfs, backup_spec. cbn [snd add_log fs].
    rewrite Hc. cbn [set_fs fs]. split.
    + rewrite lookup_insert_ne by discriminate. exact Hc.
    + apply lookup_insert_eq.
Qed.

Lemma failed_pump_refresh_overwrites_backup_witness :
  update_pump_stocks broken_refresh_env pump_world
  = (Ok tt,
     mkWorld (<["data/pump_stocks_old.json" := StockList [dull_stock]]>
                (fs pump_world))
       []
       ["💣 تحليل الانفجارات السعرية...";
        "❌ فشل تحليل الانفجارات: screener timed out"] []).
Proof.
  refine (proj1 (failed_pump_refresh_overwrites_backup broken_refresh_env
                   broken_detector pump_world
                   (mkWorld (<["data/pump_stocks_old.json"
                                 := StockList [dull_stock]]> (fs pump_world))
                      [] ["💣 تحليل الانفجارات السعرية..."] []) _ _)).
  - reflexivity.
  - vm_compute. reflexivity.
Defined.

Lemma pump_refresh_backed_up (env : Env) (data : content) (w : World) :
  is_market_open (ny_now env) = Ok true ->
  (forall a b c p, keeps_file (compare_stock_lists_and_alert env a b c) p) ->
  writes_snapshot (detect_pump_stocks env)
    "data/pump_stocks.json" "data/pump_stocks_old.json" data ->
  backed_up "data/pump_stocks.json" "data/pump_stocks_old.json" data
    w (snd (update_pump_stocks env w)).
Proof.
  intros Hopen Hcmp Hwrite.
  destruct (update_pump_stocks env w) as [r w'] eqn:Hrun.
  unfold update_pump_stocks, bind at 1, lift in Hrun.
  rewrite Hopen in Hrun. cbn [negb] in Hrun.
  unfold bind at 1 in Hrun. cbn [log] in Hrun.
  rewrite try_except_bind, backup_spec in Hrun.
  eapply refresh_tail_spec in Hrun as (Hr & Hname & Hold);
    [| exact Hwrite | apply Hcmp | apply Hcmp].
  eapply backed_up_after_backup; [| exact Hname | exact Hold].
  cbn [add_log fs].
  destruct (fs w !! "data/pump_stocks.json") as [c |];
    cbn [set_fs add_log fs]; [apply lookup_insert_eq | reflexivity].
Qed.

(** X6.  Two pump refreshes in a row keep one generation: after the second,
    the snapshot holds the second result and the backup the first. *)
Theorem two_pump_refreshes_rotate
    (env1 env2 : Env) (d1 d2 : content) (w : World) :
  is_market_open (ny_now env1) = Ok true ->
  is_market_open (ny_now env2) = Ok true ->
  (forall a b c p, keeps_file (compare_stock_lists_and_alert env1 a b c) p) ->
  (forall a b c p, keeps_file (compare_stock_lists_and_alert env2 a b c) p) ->
  writes_snapshot (detect_pump_stocks env1)
    "data/pump_stocks.json" "data/pump_stocks_old.json" d1 ->
  writes_snapshot (detect_pump_stocks env2)
    "data/pump_stocks.json" "data/pump_stocks_old.json" d2 ->
  let w1 := snd (update_pump_stocks env1 w) in
  let w2 := snd (update_pump_stocks env2 w1) in
  fs w2 !! "data/pump_stocks.json" = Some d2 /\
  fs w2 !! "data/pump_stocks_old.json" = Some d1.
Proof.
  intros Ho1 Ho2 Hc1 Hc2 Hw1 Hw2 w1 w2.
  destruct (pump_refresh_backed_up env1 d1 w Ho1 Hc1 Hw1) as (Hn1 & _ & _).
  destruct (pump_refresh_backed_up env2 d2 w1 Ho2 Hc2 Hw2) as (Hn2 & Hb2 & _).
  split; [exact Hn2 |]. apply Hb2, Hn1.
Qed.

Lemma two_pump_refreshes_rotate_witness :
  let w1 := snd (update_pump_stocks refresh_env pump_world) in
  let w2 := snd (update_pump_stocks second_refresh_env w1) in
  fs w2 !! "data/pump_stocks.json" = Some (StockList [oldie_stock]) /\
  fs w2 !! "data/pump_stocks_old.json" = Some (StockList [good_stock]).
Proof.
  apply (two_pump_refreshes_rotate refresh_env second_refresh_env).
  - reflexivity.
  - reflexivity.
  - intros a b c p w. reflexivity.
  - intros a b c p w. reflexivity.
  - intros w. eexists. split; [reflexivity |]. split.
    + apply lookup_insert_eq.
    + apply lookup_insert_ne. discriminate.
  - intros w. eexists. split; [reflexivity |]. split.
    + apply lookup_insert_eq.
    + apply lookup_insert_ne. discriminate.
Defined.

(** X7.  The market refresh backs up all three snapshots before the analysis
    starts: as long as the collaborators leave the three backup files
    alone, each backup holds afterwards what its snapshot held before the
    call, whether the analysis succeeds or raises. *)
Theorem market_refresh_backs_up_all (env : Env) (w : World) :
  is_market_open (ny_now env) = Ok true ->
  (forall p, In p backup_files -> market_collaborators_keep env p) ->
  fst (update_market_data env w) = Ok tt /\
  (forall c, fs w !! "data/top_stocks.json" = Some c ->
     fs (snd (update_market_data env w)) !! "data/top_stocks_old.json"
       = Some c) /\
  (forall c, fs w !! "data/pump_stocks.json" = Some c ->
     fs (snd (update_market_data env w)) !! "data/pump_stocks_old.json"
       = Some c) /\
  (forall c, fs w !! "data/high_movement_stocks.json" = Some c ->
     fs (snd (update_market_data env w))
       !! "data/high_movement_stocks_old.json" = Some c).
Proof.
  intros Hopen Hkeep.
  assert (Htail : forall p, In p backup_files ->
            keeps_file
              (try_except
                 (analyze_market env ;;
                  log "✅ تم تحليل السوق بنجاح." ;;
                  compare_stock_lists_and_alert env "data/top_stocks_old.json"
                    "data/top_stocks.json" "🌀 سهم قوي جديد:" ;;
                  check_cross_list_movements env)
                 (fun e => log ("❌ فشل تحليل السوق: " ++ exn_text e))) p).
  { intros p Hp. destruct (Hkeep p Hp) as (Ha & Hc & Hx).
    apply keeps_file_try_except; [| intros e; apply keeps_file_log].
    repeat (apply keeps_file_seq); auto using keeps_file_log. }
  destruct (update_market_data_returns env true w Hopen) as [w' Hrun].
  rewrite Hrun. cbn [fst snd]. split; [reflexivity |].
  unfold update_market_data, bind at 1, lift in Hrun.
  rewrite Hopen in Hrun. cbn [negb] in Hrun.
  unfold bind at 1 in Hrun. cbn [log] in Hrun.
  rewrite try_except_bind, backup_spec in Hrun.
  rewrite try_except_bind, backup_spec in Hrun.
  rewrite try_except_bind, backup_spec in Hrun.
  apply (f_equal snd) in Hrun. cbn [snd] in Hrun. subst w'.
  repeat split; intros c Hc;
    (rewrite Htail by (cbn; tauto));
    repeat match goal with
    | |- context [match ?o with Some _ => _ | None => _ end] =>
        destruct o eqn:?; cbn [set_fs add_log fs] in *
    end;
    repeat (rewrite lookup_insert_ne in * by discriminate);
    rewrite ?lookup_insert_eq; congruence.
Qed.

Lemma market_refresh_backs_up_all_witness :
  fs (snd (update_market_data refresh_env pump_world))
    !! "data/pump_stocks_old.json" = Some (StockList [dull_stock]).
Proof.
  refine (proj1 (proj2 (proj2 (market_refresh_backs_up_all refresh_env
            pump_world _ _))) _ _).
  - reflexivity.
  - intros p _. repeat split; intros; intro; reflexivity.
  - reflexivity.
Defined.

(** ** The keyword search of [fetch_news_sentiment] *)

Lemma append_nil (b : string) : "" ++ b = b.
Proof. reflexivity. Qed.

Lemma append_cons (c : ascii) (a b : string) :
  String c a ++ b = String c (a ++ b).
Proof. reflexivity. Qed.

Lemma ascii_lower_app (a b : string) :
  ascii_lower (a ++ b) = ascii_lower a ++ ascii_lower b.
Proof.
  induction a as [| c a IH].
  - rewrite !append_nil. reflexivity.
  - cbn [ascii_lower]. rewrite !append_cons. cbn [ascii_lower].
    rewrite IH. reflexivity.
Qed.

Lemma prefix_app (n s : string) : String.prefix n (n ++ s) = true.
Proof.
  induction n as [| c n IH]; [destruct s; reflexivity |].
  rewrite append_cons. cbn [String.prefix].
  destruct (Ascii.ascii_dec c c); [exact IH | contradiction].
Qed.

Lemma contains_app (n pre post : string) : contains n (pre ++ n ++ post) = true.
Proof.
  induction pre as [| c pre IH].
  - rewrite append_nil.
    destruct (n ++ post) eqn:E; cbn [contains];
      rewrite <- E, prefix_app; reflexivity.
  - rewrite append_cons. cbn [contains]. rewrite IH. apply orb_true_r.
Qed.

Lemma contains_ascii_lower (word kw pre post : string) :
  ascii_lower kw = word ->
  contains word (ascii_lower (pre ++ kw ++ post)) = true.
Proof.
  intros <-. rewrite !ascii_lower_app. apply contains_app.
Qed.

Lemma has_keyword_false (title : string) :
  has_keyword title = false ->
  contains "bankruptcy" title || contains "dilution" title = false /\
  contains "record revenue" title || contains "strong earnings" title = false.
Proof.
  unfold has_keyword. intros H.
  apply orb_false_elim in H as [H H4]. apply orb_false_elim in H as [H H3].
  rewrite H, H3, H4. split; reflexivity.
Qed.

Lemma scan_articles_skips_quiet (env : Env) (quiet rest : list json) :
  Forall (quiet_article env) quiet ->
  scan_articles env (quiet ++ rest)%list = scan_articles env rest.
Proof.
  induction 1 as [| a quiet Ha _ IH]; [reflexivity |].
  cbn [app scan_articles].
  destruct a as [| | | | | fields]; cbn in Ha; try contradiction.
  cbn [dict_get].
  destruct (items_lookup "title" fields) as [[| | | s | |] |];
    try contradiction; cbn [py_lower];
    destruct (has_keyword_false _ Ha) as [-> ->]; exact IH.
Qed.

Lemma fetch_with_articles (env : Env) (symbol : string)
    (articles : list json) (w : World) :
  news_articles env symbol articles ->
  fetch_news_sentiment env symbol w =
    match scan_articles env articles with
    | Ok (Some s) => (Ok s, w)
    | Ok None => (Ok "neutral", w)
    | Raise e =>
        (Ok "neutral",
         add_log ("❌ خطأ في تحليل الأخبار لـ " ++ symbol ++ ": " ++ exn_text e) w)
    end.
Proof.
  intros (r & fields & Hget & Hstatus & Hjson & Hdata).
  rewrite fetch_news_sentiment_cases. unfold sentiment_query.
  rewrite Hget, Hstatus, Hjson. cbn [Z.eqb Pos.eqb dict_get].
  rewrite Hdata. cbn [py_iter].
  destruct (scan_articles env articles) as [[s |] | e]; reflexivity.
Qed.

Lemma scan_negative_title (env : Env) (hit : json) (rest : list json)
    (title : string) :
  title_of hit title -> negative_title env title ->
  scan_articles env (hit :: rest) = Ok (Some "negative").
Proof.
  intros (fields & -> & Htitle) Hneg.
  cbn [scan_articles dict_get]. rewrite Htitle. cbn [py_lower].
  destruct Hneg as [-> | ->]; rewrite ?orb_true_r; reflexivity.
Qed.

(** X8.  The first article whose lower-cased title has one of the
    phrases decides: earlier articles without a phrase (or without a
    title) are passed over; a negative phrase gives "negative" whatever
    else the title says; a positive phrase gives "positive" when the
    title has no negative one; nothing is logged.  For a title that
    Python lower-cases as ASCII (any title of ASCII characters only), a
    negative phrase is found in any capitalisation and anywhere in the
    title. *)
Theorem first_keyword_article_decides (env : Env) (symbol : string)
    (quiet : list json) (hit : json) (rest : list json) (title : string)
    (w : World) :
  news_articles env symbol (quiet ++ hit :: rest)%list ->
  Forall (quiet_article env) quiet ->
  title_of hit title ->
  (negative_title env title ->
     fetch_news_sentiment env symbol w = (Ok "negative", w)) /\
  (positive_title env title ->
     fetch_news_sentiment env symbol w = (Ok "positive", w)) /\
  (forall pre kw post,
     title = pre ++ kw ++ post -> lowers_as_ascii env title ->
     ascii_lower kw = "bankruptcy" \/ ascii_lower kw = "dilution" ->
     fetch_news_sentiment env symbol w = (Ok "negative", w)).
Proof.
  intros Hnews Hquiet Htitle.
  rewrite (fetch_with_articles env symbol _ w Hnews).
  rewrite (scan_articles_skips_quiet env quiet (hit :: rest) Hquiet).
  split; [| split].
  - intros Hneg. rewrite (scan_negative_title env hit rest title Htitle Hneg).
    reflexivity.
  - intros (Hn1 & Hn2 & Hpos). destruct Htitle as (fields & -> & Htitle).
    cbn [scan_articles dict_get]. rewrite Htitle. cbn [py_lower].
    rewrite Hn1, Hn2. cbn [orb].
    destruct Hpos as [-> | ->]; rewrite ?orb_true_r; reflexivity.
  - intros pre kw post -> Hascii Hkw.
    rewrite (scan_negative_title env hit rest _ Htitle); [reflexivity |].
    unfold negative_title. rewrite Hascii.
    destruct Hkw as [Hkw | Hkw]; [left | right];
      apply contains_ascii_lower, Hkw.
Qed.

Lemma first_keyword_article_decides_witness :
  fetch_news_sentiment
    (news_env (articles_response
       [article "Markets calm"; JObj [("uuid", JNum 3)];
        article "ACME hits Record Revenue despite DILUTION fears";
        article "ACME: strong earnings"]))
    "ACME" empty_world
  = (Ok "negative", empty_world).
Proof.
  refine (proj2 (proj2 (first_keyword_article_decides
            (news_env (articles_response
               [article "Markets calm"; JObj [("uuid", JNum 3)];
                article "ACME hits Record Revenue despite DILUTION fears";
                article "ACME: strong earnings"]))
            "ACME"
            [article "Markets calm"; JObj [("uuid", JNum 3)]]
            (article "ACME hits Record Revenue despite DILUTION fears")
            [article "ACME: strong earnings"]
            "ACME hits Record Revenue despite DILUTION fears"
            empty_world _ _ _))
            "ACME hits Record Revenue despite " "DILUTION" " fears" _ _ _).
  - eexists _, _. repeat split; reflexivity.
  - repeat constructor.
  - eexists. split; reflexivity.
  - reflexivity.
  - reflexivity.
  - right. reflexivity.
Defined.

(** X9.  A 200 answer whose articles have no phrase in their lower-cased
    titles (a missing title counting as empty), and an answer without a
    ["data"] entry, give "neutral" without any log line. *)
Theorem quiet_news_is_neutral (env : Env) (symbol : string) (w : World) :
  (forall articles,
     news_articles env symbol articles ->
     Forall (quiet_article env) articles ->
     fetch_news_sentiment env symbol w = (Ok "neutral", w)) /\
  (forall r fields,
     requests_get env (news_url env symbol) = Ok r ->
     status_code r = 200 ->
     response_json r = Ok (JObj fields) ->
     items_lookup "data" fields = None ->
     fetch_news_sentiment env symbol w = (Ok "neutral", w)).
Proof.
  split.
  - intros articles Hnews Hquiet.
    rewrite (fetch_with_articles env symbol _ w Hnews).
    rewrite <- (app_nil_r articles).
    rewrite (scan_articles_skips_quiet env articles [] Hquiet). reflexivity.
  - intros r fields Hget Hstatus Hjson Hdata.
    rewrite fetch_news_sentiment_cases. unfold sentiment_query.
    rewrite Hget, Hstatus, Hjson. cbn [Z.eqb Pos.eqb dict_get].
    rewrite Hdata. reflexivity.
Qed.

Lemma quiet_news_is_neutral_witness :
  fetch_news_sentiment
    (news_env (articles_response [article "Markets calm"; JObj []]))
    "ACME" empty_world
  = (Ok "neutral", empty_world).
Proof.
  refine (proj1 (quiet_news_is_neutral
            (news_env (articles_response [article "Markets calm"; JObj []]))
            "ACME" empty_world) [article "Markets calm"; JObj []] _ _).
  - eexists _, _. repeat split; reflexivity.
  - repeat constructor.
Defined.

(** X10.  A malformed entry in the article list (not a dict, or a title
    that is not a string) met before any article with a phrase in its
    lower-cased title hides everything after it: the result is "neutral"
    and one error line is logged, whatever the later articles say. *)
Theorem malformed_article_masks_later_news (env : Env) (symbol : string)
    (quiet : list json) (bad : json) (rest : list json) (w : World) :
  news_articles env symbol (quiet ++ bad :: rest)%list ->
  Forall (quiet_article env) quiet ->
  malformed_article bad ->
  exists line,
    fetch_news_sentiment env symbol w = (Ok "neutral", add_log line w).
Proof.
  intros Hnews Hquiet Hbad.
  rewrite (fetch_with_articles env symbol _ w Hnews).
  rewrite (scan_articles_skips_quiet env quiet (bad :: rest) Hquiet).
  cbn [scan_articles].
  destruct bad as [| | | | | fields]; cbn in Hbad; cbn [dict_get];
    try (eexists; reflexivity).
  destruct (items_lookup "title" fields) as [[| | | s | |] |];
    try contradiction; cbn [py_lower]; eexists; reflexivity.
Qed.

Lemma malformed_article_masks_later_news_witness :
  exists line,
    fetch_news_sentiment
      (news_env (articles_response
         [article "Markets calm"; JObj [("title", JNull)];
          article "ACME files for bankruptcy"]))
      "ACME" empty_world
    = (Ok "neutral", add_log line empty_world).
Proof.
  refine (malformed_article_masks_later_news
            (news_env (articles_response
               [article "Markets calm"; JObj [("title", JNull)];
                article "ACME files for bankruptcy"]))
            "ACME" [article "Markets calm"] (JObj [("title", JNull)])
            [article "ACME files for bankruptcy"] empty_world _ _ _).
  - eexists _, _. repeat split; reflexivity.
  - repeat constructor.
  - exact I.
Defined.

(** ** Alerts of the positive-news watcher, and repeated runs *)

Lemma scan_stocks_delivering (env : Env) (old : list string)
    (stocks : list stock) :
  delivers env ->
  forall (acc : list stock) (w : World),
  exists w',
    scan_stocks env old stocks acc w
      = (Ok (acc ++ new_positive env old stocks)%list, w') /\
    fs w' = fs w /\
    alerts w' = (alerts w ++ map (fun st => positive_message (symbol st))
                               (new_positive env old stocks))%list.
Proof.
  intros Hsend. induction stocks as [| st rest IH]; intros acc w.
  - exists w. cbn. rewrite !app_nil_r. repeat split.
  - cbn [scan_stocks]. unfold bind at 1.
    destruct (fetch_news_sentiment_value env (symbol st) w)
      as (w1 & -> & Hfs1 & Hal1 & _).
    cbn [new_positive List.filter]. fold (new_positive env old rest).
    destruct (String.eqb (sentiment_of env (symbol st)) "positive"
              && not_in (symbol st) old).
    + unfold bind at 1. rewrite Hsend.
      destruct (IH (acc ++ [st])%list (add_alert (positive_message (symbol st)) w1))
        as (w' & Hrun & Hfs & Hal).
      exists w'. unfold positive_message in *. rewrite Hrun.
      rewrite <- app_assoc. cbn [app map]. split; [reflexivity |].
      split; [rewrite Hfs; exact Hfs1 |].
      rewrite Hal. cbn [add_alert alerts]. rewrite Hal1, <- app_assoc.
      reflexivity.
    + destruct (IH acc w1) as (w' & Hrun & Hfs & Hal).
      exists w'. rewrite Hrun. split; [reflexivity |].
      split; [rewrite Hfs; exact Hfs1 |]. rewrite Hal, Hal1. reflexivity.
Qed.

(** What one run leaves behind when the feed returns and every message
    is delivered. *)
Lemma watch_run_delivering (env : Env) (stocks : list stock)
    (old : list string) (w : World) :
  plain_feed env stocks -> delivers env ->
  old_symbols_of w = Some old ->
  exists w',
    watch_positive_news_stocks env w = (Ok tt, w') /\
    alerts w' = (alerts w ++ map (fun st => positive_message (symbol st))
                               (new_positive env old stocks))%list /\
    fs w' = match new_positive env old stocks with
            | [] => fs w
            | _ :: _ =>
                <[POSITIVE_NEWS_FILE := StockList (new_positive env old stocks)]>
                  (fs w)
            end.
Proof.
  intros Hfeed Hsend Hold.
  unfold watch_positive_news_stocks, bind at 1. cbn [log].
  rewrite try_except_bind, Hfeed.
  rewrite try_except_bind. unfold path_exists at 1.
  unfold old_symbols_of in Hold. cbn [add_log fs].
  assert (Hscan : forall w0,
            fs w0 = fs w -> alerts w0 = alerts w ->
            exists w',
              try_except
                (positive_stocks <- scan_stocks env old stocks [] ;;
                 match positive_stocks with
                 | _ :: _ =>
                     json_dump positive_stocks POSITIVE_NEWS_FILE ;;
                     log ("✅ تم حفظ " ++ pretty (length positive_stocks)
                          ++ " سهم في قائمة الأخبار الإيجابية.")
                 | [] => log "⚠️ لا توجد أسهم إيجابية حالياً."
                 end)
                (fun e => log ("❌ فشل في مراقبة الأخبار الإيجابية: "
                               ++ exn_text e)) w0
              = (Ok tt, w') /\
              alerts w' = (alerts w ++ map (fun st => positive_message (symbol st))
                                         (new_positive env old stocks))%list /\
              fs w' = match new_positive env old stocks with
                      | [] => fs w
                      | _ :: _ =>
                          <[POSITIVE_NEWS_FILE
                              := StockList (new_positive env old stocks)]> (fs w)
                      end).
  { intros w0 Hfs0 Hal0. rewrite try_except_bind.
    destruct (scan_stocks_delivering env old stocks Hsend [] w0)
      as (w1 & -> & Hfs1 & Hal1).
    cbn [app]. rewrite Hal0 in Hal1. rewrite Hfs0 in Hfs1.
    destruct (new_positive env old stocks) as [| st np].
    - eexists. split; [reflexivity |]. cbn [add_log alerts fs]. auto.
    - eexists. split; [reflexivity |].
      cbn [add_log set_fs alerts fs]. rewrite Hfs1. auto. }
  destruct (fs w !! POSITIVE_NEWS_FILE) as [[l | raw] |] eqn:Hfile;
    try discriminate.
  - injection Hold as <-.
    rewrite bool_decide_eq_true_2 by eauto.
    rewrite try_except_bind. unfold bind at 1, json_load at 1.
    cbn [add_log fs]. rewrite Hfile. cbn [ret].
    apply Hscan; reflexivity.
  - injection Hold as <-.
    rewrite bool_decide_eq_false_2 by (intros [? ?]; discriminate).
    rewrite try_except_bind. cbn [ret].
    apply Hscan; reflexivity.
Qed.

(** X11.  With a feed that returns and a transport that delivers, one run
    sends exactly one message per stock it saves, in feed order, each
    naming the symbol; and it rewrites the file exactly when it sent a
    message. *)
Theorem watch_alerts_match_saved (env : Env) (stocks : list stock)
    (old : list string) (w : World) :
  plain_feed env stocks -> delivers env ->
  old_symbols_of w = Some old ->
  let w' := snd (watch_positive_news_stocks env w) in
  alerts w' = (alerts w ++ map (fun st => positive_message (symbol st))
                             (new_positive env old stocks))%list /\
  (new_positive env old stocks = [] -> fs w' = fs w) /\
  (new_positive env old stocks <> [] ->
     fs w' !! POSITIVE_NEWS_FILE
       = Some (StockList (new_positive env old stocks))).
Proof.
  intros Hfeed Hsend Hold.
  destruct (watch_run_delivering env stocks old w Hfeed Hsend Hold)
    as (w' & Hrun & Hal & Hfs).
  rewrite Hrun. cbn [snd]. split; [exact Hal |].
  destruct (new_positive env old stocks) as [| st np].
  - split; [intros _; exact Hfs | intros Hne; contradiction].
  - split; [discriminate |]. intros _. rewrite Hfs. apply lookup_insert_eq.
Qed.

Lemma watch_alerts_match_saved_witness :
  alerts (snd (watch_positive_news_stocks watch_env watch_world))
  = [positive_message "GOOD"].
Proof.
  refine (proj1 (watch_alerts_match_saved watch_env
            [good_stock; oldie_stock; dull_stock] ["OLDIE"] watch_world _ _ _)).
  - intros w. reflexivity.
  - intros m w. reflexivity.
  - reflexivity.
Defined.

Lemma existsb_symbol_filter (P : string -> bool) (sym : string)
    (stocks : list stock) :
  existsb (String.eqb sym)
    (map symbol (List.filter (fun st => P (symbol st)) stocks))
  = P sym && existsb (String.eqb sym) (map symbol stocks).
Proof.
  induction stocks as [| st rest IH]; cbn [List.filter map existsb].
  - rewrite andb_false_r. reflexivity.
  - destruct (P (symbol st)) eqn:HP; cbn [map existsb]; rewrite IH.
    + destruct (String.eqb_spec sym (symbol st)) as [-> | Hne]; cbn [orb].
      * rewrite HP. reflexivity.
      * reflexivity.
    + destruct (String.eqb_spec sym (symbol st)) as [-> | Hne]; cbn [orb].
      * rewrite HP. reflexivity.
      * reflexivity.
Qed.

(** The stocks that are new for a second run are the positive ones that
    were stored before the first. *)
Lemma new_positive_twice (env : Env) (old : list string) (stocks : list stock) :
  new_positive env (map symbol (new_positive env old stocks)) stocks
  = known_positive env old stocks.
Proof.
  unfold new_positive at 1, known_positive.
  apply List.filter_ext_in. intros st Hin.
  unfold not_in at 1. unfold new_positive.
  rewrite (existsb_symbol_filter
             (fun s => String.eqb (sentiment_of env s) "positive" && not_in s old)).
  assert (Hex : existsb (String.eqb (symbol st)) (map symbol stocks) = true).
  { apply existsb_exists. exists (symbol st). split.
    - apply in_map, Hin.
    - apply String.eqb_refl. }
  rewrite Hex, andb_true_r.
  destruct (String.eqb (sentiment_of env (symbol st)) "positive");
    destruct (not_in (symbol st) old); reflexivity.
Qed.

(** X12.  Because a run replaces the stored list by the new stocks only, a
    second run over the same feed and news announces again exactly the
    positive stocks that had been stored before the first run (and none
    of those it has just announced); when there are such stocks, they
    replace the list written by the first run. *)
Theorem watch_second_run_reannounces (env : Env) (stocks : list stock)
    (old : list string) (w : World) :
  plain_feed env stocks -> delivers env ->
  old_symbols_of w = Some old ->
  new_positive env old stocks <> [] ->
  let w1 := snd (watch_positive_news_stocks env w) in
  let w2 := snd (watch_positive_news_stocks env w1) in
  alerts w2 = (alerts w1 ++ map (fun st => positive_message (symbol st))
                              (known_positive env old stocks))%list /\
  fs w2 !! POSITIVE_NEWS_FILE
    = Some (StockList (match known_positive env old stocks with
                       | [] => new_positive env old stocks
                       | _ :: _ => known_positive env old stocks
                       end)).
Proof.
  intros Hfeed Hsend Hold Hne.
  destruct (watch_run_delivering env stocks old w Hfeed Hsend Hold)
    as (w1 & Hrun1 & Hal1 & Hfs1).
  rewrite Hrun1. cbn [snd].
  assert (Hfile1 : fs w1 !! POSITIVE_NEWS_FILE
                   = Some (StockList (new_positive env old stocks))).
  { rewrite Hfs1. destruct (new_positive env old stocks); [contradiction |].
    apply lookup_insert_eq. }
  assert (Hold1 : old_symbols_of w1
                  = Some (map symbol (new_positive env old stocks))).
  { unfold old_symbols_of. rewrite Hfile1. reflexivity. }
  destruct (watch_run_delivering env stocks _ w1 Hfeed Hsend Hold1)
    as (w2 & Hrun2 & Hal2 & Hfs2).
  rewrite Hrun2. cbn [snd].
  rewrite new_positive_twice in Hal2, Hfs2.
  split; [exact Hal2 |]. rewrite Hfs2.
  destruct (known_positive env old stocks) as [| st kp].
  - exact Hfile1.
  - apply lookup_insert_eq.
Qed.

Lemma watch_second_run_reannounces_witness :
  let w1 := snd (watch_positive_news_stocks watch_env watch_world) in
  let w2 := snd (watch_positive_news_stocks watch_env w1) in
  alerts w2 = [positive_message "GOOD"; positive_message "OLDIE"] /\
  fs w2 !! POSITIVE_NEWS_FILE = Some (StockList [oldie_stock]).
Proof.
  apply (watch_second_run_reannounces watch_env
           [good_stock; oldie_stock; dull_stock] ["OLDIE"] watch_world).
  - intros w. reflexivity.
  - intros m w. reflexivity.
  - reflexivity.
  - discriminate.
Defined.

(** ** The two market-open checks compared *)

(** X13.  On the same clock reading, the hourly check of enhanced_main.py is
    open whenever the check of main.py is; they differ exactly on
    Monday..Friday from 09:00 to 09:29 and from 16:00 to 16:59, where
    only the hourly check says open. *)
Theorem hourly_check_is_wider (t : DateTime) :
  wf_datetime t ->
  (is_market_open (Ok t) = Ok true ->
   check_market_open (Ok t) = (Ok true, [])) /\
  (check_market_open (Ok t) = (Ok true, []) /\
   is_market_open (Ok t) = Ok false
   <-> weekday t <= 4 /\ (hour t = 9 /\ minute t < 30 \/ hour t = 16)).
Proof.
  intros Hwf. pose proof (is_market_open_session t Hwf) as Hopen.
  destruct Hwf as (Hw & Hh & Hm & Hs).
  assert (Hcheck : check_market_open (Ok t) = (Ok true, [])
                   <-> weekday t <= 4 /\ 9 <= hour t <= 16).
  { unfold check_market_open.
    destruct (Z.leb_spec 5 (weekday t)); [split; [discriminate | lia] |].
    destruct (Z.leb_spec 9 (hour t)); destruct (Z.leb_spec (hour t) 16);
      cbn [andb]; split; try discriminate; try lia; reflexivity. }
  assert (Hclosed : is_market_open (Ok t) = Ok false <-> ~ in_session t).
  { destruct (is_market_open (Ok t)) as [[|] | e] eqn:E.
    - split; [discriminate |]. intros Hn. exfalso. apply Hn, Hopen. reflexivity.
    - split; [| reflexivity]. intros _ Hin. apply Hopen in Hin. discriminate.
    - unfold is_market_open in E. destruct (5 <=? weekday t); discriminate. }
  unfold in_session, time_of_day in *. split.
  - intros Ho. apply Hcheck. apply Hopen in Ho. lia.
  - rewrite Hcheck, Hclosed. lia.
Qed.

Lemma hourly_check_is_wider_witness :
  check_market_open (Ok monday_16_30_00) = (Ok true, []) /\
  is_market_open (Ok monday_16_30_00) = Ok false.
Proof.
  assert (Hwf : wf_datetime monday_16_30_00)
    by (unfold wf_datetime, monday_16_30_00; cbn; lia).
  apply (proj2 (hourly_check_is_wider monday_16_30_00 Hwf)).
  unfold monday_16_30_00; cbn. lia.
Defined.

(** ** Ticks that fail *)

Lemma run_pending_defined (env : Env) (due : list job) (w : World) :
  Forall (fun j => defined_callable (job_do j)) due ->
  exists w', run_pending env due w = (Ok tt, w').
Proof.
  intros Hdue. revert w. induction Hdue as [| j due Hj _ IH]; intros w.
  - eexists. reflexivity.
  - cbn [run_pending]. unfold bind.
    destruct j as [cad [c | |]]; cbn [job_do call_job_func] in *.
    + unfold create_task. apply IH.
    + destruct (watcher_returns env w) as [w1 ->]. apply IH.
    + exfalso. apply Hj. reflexivity.
Qed.

(** The schedule model's [raises_when_called] agrees with what calling
    the callable does. *)
Lemma raises_when_called_agrees (env : Env) (f : job_func) (w : World) :
  if DailyJob.raises_when_called f
  then exists e, call_job_func env f w = (Raise e, w)
  else exists w', call_job_func env f w = (Ok tt, w').
Proof.
  destruct f as [c | |]; cbn [DailyJob.raises_when_called call_job_func].
  - eexists. reflexivity.
  - apply watcher_returns.
  - eexists. reflexivity.
Qed.

(** X14.  A tick fails exactly when the job of line 246 is due.  Every other
    registered callable returns: the [create_task] lambdas only enqueue,
    and the watcher, which runs inside the tick, catches whatever its
    collaborators raise.  The callable of line 246 raises, the jobs due
    after it in that tick are not called, and only the tasks of the jobs
    before it have been created. *)
Theorem tick_fails_exactly_on_stop_order_job (env : Env) (w : World) :
  (exists w', watch_positive_news_stocks env w = (Ok tt, w')) /\
  (forall due, Forall (fun j => defined_callable (job_do j)) due ->
     exists w', run_pending env due w = (Ok tt, w')) /\
  (forall before after,
     Forall (fun j => spawns (job_do j)) before ->
     run_pending env (before ++ stop_order_job :: after) w
       = (Raise name_error,
          mkWorld (fs w) (alerts w) (logs w) (tasks w ++ spawned before))).
Proof.
  split; [apply watcher_returns |]. split.
  - intros due Hdue. apply run_pending_defined, Hdue.
  - intros before after Hbefore. revert w.
    induction Hbefore as [| j before Hj _ IH]; intros w.
    + cbn. rewrite app_nil_r. destruct w; reflexivity.
    + destruct j as [cad [c | |]]; cbn in Hj; try contradiction.
      cbn [app run_pending job_do call_job_func]. unfold bind, create_task.
      rewrite IH. cbn [add_task fs alerts logs tasks spawned job_do].
      rewrite <- app_assoc. reflexivity.
Qed.

Lemma tick_fails_exactly_on_stop_order_job_witness :
  run_pending (quiet_env (Ok monday_10_15_00))
    (five_minute_jobs ++ stop_order_job
       :: [mkJob (Every_minutes 5) (Lambda_create_task Coro_track_targets)])
    empty_world
  = (Raise name_error,
     mkWorld ∅ [] [] [Coro_update_market_data; Coro_update_pump_stocks]).
Proof.
  refine (proj2 (proj2 (tick_fails_exactly_on_stop_order_job
            (quiet_env (Ok monday_10_15_00)) empty_world))
            five_minute_jobs
            [mkJob (Every_minutes 5) (Lambda_create_task Coro_track_targets)] _).
  repeat constructor.
Defined.

(** X15.  [keep_running_schedules] has no handler: the exception of the first
    failing tick leaves the loop, and no later tick is dispatched. *)
Theorem dispatch_loop_ends_at_first_failing_tick
    (env : Env) (asleep : M unit) (earlier : list (list job))
    (due : list job) (later : list (list job)) (e : exn) (w w1 w2 : World) :
  keep_running_schedules env asleep earlier w = (Ok tt, w1) ->
  run_pending env due w1 = (Raise e, w2) ->
  keep_running_schedules env asleep (earlier ++ due :: later) w
    = (Raise e, w2).
Proof.
  revert w. induction earlier as [| d earlier IH]; intros w Hearlier Hdue.
  - cbn in Hearlier. injection Hearlier as <-.
    cbn [app keep_running_schedules]. unfold bind at 1. rewrite Hdue.
    reflexivity.
  - cbn [app keep_running_schedules] in *. unfold bind at 1 in Hearlier.
    unfold bind at 1.
    destruct (run_pending env d w) as [[[] | e0] wa]; [| discriminate].
    unfold bind at 1 in Hearlier. unfold bind at 1.
    destruct (asleep wa) as [[[] | e1] wb]; [| discriminate].
    apply IH; assumption.
Qed.

Lemma dispatch_loop_ends_at_first_failing_tick_witness :
  keep_running_schedules (quiet_env (Ok monday_10_15_00)) (ret tt)
    ([[]; five_minute_jobs] ++ [stop_order_job] :: [five_minute_jobs])
    empty_world
  = (Raise name_error,
     mkWorld ∅ [] [] [Coro_update_market_data; Coro_update_pump_stocks]).
Proof.
  apply (dispatch_loop_ends_at_first_failing_tick (quiet_env (Ok monday_10_15_00))
           (ret tt) [[]; five_minute_jobs] [stop_order_job] [five_minute_jobs]
           name_error empty_world
           (mkWorld ∅ [] [] [Coro_update_market_data; Coro_update_pump_stocks]));
    reflexivity.
Defined.

(** * Properties of enhanced_main.py *)

(** ** The start-up notification *)

Lemma token_set_probe (config token : json) :
  token_set config token ->
  exists section,
    dict_get config "notifications" (JObj []) = Ok section /\
    dict_get section "telegram_bot_token" JNull = Ok token /\
    py_getitem config "notifications" = Ok section.
Proof.
  intros [Htok Htruthy]. unfold token_of, notification_setting in Htok.
  destruct config as [| | | | | fields]; try discriminate.
  cbn [py_getitem dict_get] in *.
  destruct (items_lookup "notifications" fields) as [section |]; [| discriminate].
  exists section. split; [reflexivity |]. split; [| reflexivity].
  destruct section as [| | | | | sfields]; try discriminate.
  cbn [py_getitem dict_get] in *.
  destruct (items_lookup "telegram_bot_token" sfields) as [v |];
    [congruence | discriminate].
Qed.

(** X16.  A start-up message goes out only if the library can be imported,
    the configured token counts as set and is not the placeholder, and a
    chat id is configured; it goes to that chat id, its text is the
    start-up message for the configured mode, and it is the only message
    of the call. *)
Theorem startup_message_sent_only_if_configured (tg : Telegram)
    (started : result string) (config : json) (chat : json) (text : string) :
  In (Sent chat text) (send_startup_notification tg started config) ->
  telegram_importable tg = true /\
  chat_id_of config = Ok chat /\
  (exists token,
     token_set config token /\
     differs_from token "YOUR_TELEGRAM_BOT_TOKEN" = true /\
     bot_send_message tg token chat text = Ok tt) /\
  (exists mode now,
     trading_mode config = Ok mode /\ started = Ok now /\
     text = startup_message mode now) /\
  length (List.filter is_sent (send_startup_notification tg started config))
    = 1%nat.
Proof.
  unfold send_startup_notification, startup_notification_body.
  destruct (dict_get config "notifications" (JObj [])) as [section | e] eqn:Hsec;
    [| try (unfold handler_events; destruct (is_import_error tg e));
       cbn; intuition discriminate].
  destruct (dict_get section "telegram_bot_token" JNull) as [probe | e] eqn:Hprobe;
    [| try (unfold handler_events; destruct (is_import_error tg e));
       cbn; intuition discriminate].
  destruct (py_truthy probe) eqn:Htruthy; cbn [negb];
    [| try (unfold handler_events; destruct (is_import_error tg e));
       cbn; intuition discriminate].
  destruct (telegram_importable tg) eqn:Himport; cbn [negb];
    [| try (unfold handler_events; destruct (is_import_error tg e));
       cbn; intuition discriminate].
  destruct (token_of config) as [token | e] eqn:Htoken;
    [| try (unfold handler_events; destruct (is_import_error tg e));
       cbn; intuition discriminate].
  destruct (chat_id_of config) as [chat_id | e] eqn:Hchat;
    [| try (unfold handler_events; destruct (is_import_error tg e));
       cbn; intuition discriminate].
  destruct (differs_from token "YOUR_TELEGRAM_BOT_TOKEN") eqn:Hdiff;
    [| cbn; intuition].
  destruct (make_bot tg token) as [[] | e]; [| try (unfold handler_events; destruct (is_import_error tg e));
       cbn; intuition discriminate].
  destruct (trading_mode config) as [mode | e]; [| try (unfold handler_events; destruct (is_import_error tg e));
       cbn; intuition discriminate].
  destruct started as [now | e]; [| try (unfold handler_events; destruct (is_import_error tg e));
       cbn; intuition discriminate].
  destruct (bot_send_message tg token chat_id (startup_message mode now))
    as [[] | e] eqn:Hsend; [| try (unfold handler_events; destruct (is_import_error tg e));
       cbn; intuition discriminate].
  cbn [In List.filter is_sent length].
  intros [Hin | [Hin | [Hin | []]]]; try discriminate.
  injection Hin as <- <-.
  assert (Hsame : probe = token).
  { unfold token_of, notification_setting in Htoken.
    destruct config as [| | | | | fields]; try discriminate.
    cbn [dict_get py_getitem] in *.
    destruct (items_lookup "notifications" fields) as [s |]; [| discriminate].
    apply Ok_inj in Hsec. subst s.
    destruct section as [| | | | | sfields]; try discriminate.
    cbn [dict_get py_getitem] in *.
    destruct (items_lookup "telegram_bot_token" sfields); congruence. }
  subst probe.
  split; [reflexivity |]. split; [reflexivity |].
  split; [exists token; repeat split; assumption |].
  split; [exists mode, now; repeat split | reflexivity].
Qed.

Lemma startup_message_sent_only_if_configured_witness :
  chat_id_of (configured (JStr "123:abc")) = Ok (JNum 42) /\
  length (List.filter is_sent
            (send_startup_notification working_telegram (Ok "2025-01-06 09:00:00")
               (configured (JStr "123:abc")))) = 1%nat.
Proof.
  destruct (startup_message_sent_only_if_configured working_telegram
              (Ok "2025-01-06 09:00:00") (configured (JStr "123:abc"))
              (JNum 42) (startup_message "Live Trading" "2025-01-06 09:00:00"))
    as (_ & Hchat & _ & _ & Hone).
  - left. reflexivity.
  - split; assumption.
Defined.

(** X17.  What the call does when it sends nothing.  Without a token
    that counts as set it reports "not configured".  With one: a library
    that cannot be imported is reported as missing; the placeholder token
    with a chat id ends the call without any message, log record or
    printed line; and an exception raised by the lookup of the chat id
    (also for the placeholder token), by [Bot(...)] or by [send_message]
    goes to the handlers, which report it as a missing library when it
    is an [ImportError] and as a failure otherwise. *)
Theorem startup_notification_without_message (tg : Telegram)
    (started : result string) (config token : json) :
  (well_shaped config -> (forall t, ~ token_set config t) ->
   send_startup_notification tg started config
   = [Logged "info" "📱 Telegram not configured - skipping notification";
      Printed "📱 Telegram not configured - skipping notification"]) /\
  (token_set config token -> telegram_importable tg = false ->
   send_startup_notification tg started config = unavailable_events) /\
  (token_set config token -> telegram_importable tg = true ->
   forall e, chat_id_of config = Raise e ->
   send_startup_notification tg started config
   = if is_import_error tg e then unavailable_events else failure_events e) /\
  (token_set config token -> telegram_importable tg = true ->
   forall chat, chat_id_of config = Ok chat ->
   token = JStr "YOUR_TELEGRAM_BOT_TOKEN" ->
   send_startup_notification tg started config = []) /\
  (token_set config token -> telegram_importable tg = true ->
   forall chat e,
     chat_id_of config = Ok chat ->
     differs_from token "YOUR_TELEGRAM_BOT_TOKEN" = true ->
     make_bot tg token = Raise e ->
     send_startup_notification tg started config
     = if is_import_error tg e then unavailable_events else failure_events e) /\
  (token_set config token -> telegram_importable tg = true ->
   forall chat mode now e,
     chat_id_of config = Ok chat ->
     differs_from token "YOUR_TELEGRAM_BOT_TOKEN" = true ->
     make_bot tg token = Ok tt ->
     trading_mode config = Ok mode -> started = Ok now ->
     bot_send_message tg token chat (startup_message mode now) = Raise e ->
     send_startup_notification tg started config
     = if is_import_error tg e then unavailable_events else failure_events e).
Proof.
  assert (Hstep : forall t, token_set config t ->
            send_startup_notification tg started config =
              match
                (if negb (telegram_importable tg) then Ok unavailable_events
                 else
                   match chat_id_of config with
                   | Raise e => Raise e
                   | Ok chat_id =>
                       if differs_from t "YOUR_TELEGRAM_BOT_TOKEN" then
                         match make_bot tg t with
                         | Raise e => Raise e
                         | Ok _ =>
                             match trading_mode config with
                             | Raise e => Raise e
                             | Ok mode =>
                                 match started with
                                 | Raise e => Raise e
                                 | Ok now =>
                                     match bot_send_message tg t chat_id
                                             (startup_message mode now) with
                                     | Raise e => Raise e
                                     | Ok _ =>
                                         Ok [Sent chat_id (startup_message mode now);
                                             Logged "info" "✅ Startup notification sent to Telegram";
                                             Printed "✅ Startup notification sent to Telegram"]
                                     end
                                 end
                             end
                         end
                       else Ok []
                   end)
              with
              | Ok events => events
              | Raise e => handler_events tg e
              end).
  { intros t Hset. destruct (token_set_probe config t Hset) as (sec & Hsec & Hprobe & _).
    destruct Hset as [Htok Htruthy].
    unfold send_startup_notification, startup_notification_body.
    rewrite Hsec, Hprobe, Htruthy, Htok. cbn [negb]. reflexivity. }
  split; [| split; [| split; [| split; [| split]]]].
  - intros Hshape Hnone.
    unfold send_startup_notification, startup_notification_body.
    destruct config as [| | | | | fields]; cbn in Hshape; try contradiction.
    cbn [dict_get].
    destruct (items_lookup "notifications" fields) as [section |] eqn:Hsec.
    + destruct section as [| | | | | sfields]; try contradiction.
      cbn [dict_get].
      destruct (items_lookup "telegram_bot_token" sfields) as [v |] eqn:Hv;
        [| reflexivity].
      destruct (py_truthy v) eqn:Htruthy; [| reflexivity].
      exfalso. apply (Hnone v). split; [| exact Htruthy].
      unfold token_of, notification_setting. cbn [py_getitem].
      rewrite Hsec. cbn [py_getitem]. rewrite Hv. reflexivity.
    + reflexivity.
  - intros Hset Himport. rewrite (Hstep token Hset), Himport. reflexivity.
  - intros Hset Himport e Hchat.
    rewrite (Hstep token Hset), Himport, Hchat. reflexivity.
  - intros Hset Himport chat Hchat ->.
    rewrite (Hstep _ Hset), Himport, Hchat. reflexivity.
  - intros Hset Himport chat e Hchat Hdiff Hbot.
    rewrite (Hstep token Hset), Himport, Hchat, Hdiff, Hbot. reflexivity.
  - intros Hset Himport chat mode now e Hchat Hdiff Hbot Hmode -> Hsend.
    rewrite (Hstep token Hset), Himport, Hchat, Hdiff, Hbot, Hmode.
    cbn [negb]. rewrite Hsend. reflexivity.
Qed.

Lemma startup_notification_without_message_witness :
  send_startup_notification working_telegram (Ok "2025-01-06 09:00:00")
    (configured (JStr "YOUR_TELEGRAM_BOT_TOKEN")) = [] /\
  send_startup_notification working_telegram (Ok "2025-01-06 09:00:00")
    token_without_chat
  = failure_events (Exception "'telegram_chat_id'") /\
  send_startup_notification broken_telegram (Ok "2025-01-06 09:00:00")
    (configured (JStr "123:abc"))
  = unavailable_events.
Proof.
  split; [| split].
  - refine (proj1 (proj2 (proj2 (proj2 (startup_notification_without_message
              working_telegram (Ok "2025-01-06 09:00:00")
              (configured (JStr "YOUR_TELEGRAM_BOT_TOKEN"))
              (JStr "YOUR_TELEGRAM_BOT_TOKEN"))))) _ _ (JNum 42) _ _);
      try reflexivity.
    split; reflexivity.
  - refine (proj1 (proj2 (proj2 (startup_notification_without_message
              working_telegram (Ok "2025-01-06 09:00:00")
              token_without_chat (JStr "123:abc")))) _ _ _ _);
      try reflexivity.
    split; reflexivity.
  - refine (proj2 (proj2 (proj2 (proj2 (proj2
              (startup_notification_without_message
                 broken_telegram (Ok "2025-01-06 09:00:00")
                 (configured (JStr "123:abc")) (JStr "123:abc"))))))
              _ _ (JNum 42) "Live Trading" "2025-01-06 09:00:00"
              missing_module _ _ _ _ _ _);
      try reflexivity.
    split; reflexivity.
Defined.

(** ** The health check *)

(** X18.  With a readable time stamp and a configuration whose ["system"]
    entry, when there is one, is a dict, the health check returns the
    four-entry status: paper trading is the configured flag and true by
    default, and the market is reported open exactly when
    [check_market_open] says so, hence also when the clock cannot be
    read, in which case the clock error is logged first. *)
Theorem health_check_reports (repr : json -> string) (timestamp : string)
    (host : result DateTime) (fields system : list (string * json)) :
  (items_lookup "system" fields = Some (JObj system)
   \/ items_lookup "system" fields = None /\ system = []) ->
  let flag := match items_lookup "enable_paper_trading" system with
              | Some v => v
              | None => JBool true
              end in
  let status (market : string) :=
    JObj [("timestamp", JStr timestamp);
          ("system_status", JStr "✅ HEALTHY");
          ("paper_trading", flag);
          ("market_status", JStr market)] in
  (forall lines, check_market_open host = (Ok true, lines) ->
     fst (perform_health_check repr (Ok timestamp) host (JObj fields))
       = status "🟢 OPEN") /\
  (forall lines, check_market_open host = (Ok false, lines) ->
     fst (perform_health_check repr (Ok timestamp) host (JObj fields))
       = status "🔴 CLOSED") /\
  (forall e, host = Raise e ->
     perform_health_check repr (Ok timestamp) host (JObj fields)
     = (status "🟢 OPEN",
        [Logged "error" ("Market check error: " ++ exn_text e);
         Logged "info" ("Health Check: " ++ repr (status "🟢 OPEN"));
         Printed "📊 Health Check: ✅ HEALTHY | Market: 🟢 OPEN"])).
Proof.
  intros Hsys flag status.
  assert (Hget : dict_get (JObj fields) "system" (JObj []) = Ok (JObj system)).
  { cbn [dict_get]. destruct Hsys as [-> | [-> ->]]; reflexivity. }
  assert (Hflag : dict_get (JObj system) "enable_paper_trading" (JBool true)
                  = Ok flag) by reflexivity.
  unfold perform_health_check. rewrite Hget, Hflag.
  split; [| split].
  - intros lines ->. reflexivity.
  - intros lines ->. reflexivity.
  - intros e ->. reflexivity.
Qed.

Lemma health_check_reports_witness :
  fst (perform_health_check plain_repr (Ok "2025-01-06 09:15:00")
         (Raise clock_failure) (JObj []))
  = JObj [("timestamp", JStr "2025-01-06 09:15:00");
          ("system_status", JStr "✅ HEALTHY");
          ("paper_trading", JBool true);
          ("market_status", JStr "🟢 OPEN")].
Proof.
  refine (f_equal fst (proj2 (proj2 (health_check_reports plain_repr
            "2025-01-06 09:15:00" (Raise clock_failure) [] [] _))
            clock_failure eq_refl)).
  right. split; reflexivity.
Defined.

(** X19.  A configuration that is not a dict, or whose ["system"] entry is
    not one, makes the health check return the error status; the market
    is then not looked at, whatever the clock would say. *)
Theorem health_check_rejects_malformed_config (repr : json -> string)
    (timestamp : string) (host : result DateTime) (config : json) :
  (forall fields, config <> JObj fields)
  \/ (exists fields bad,
        config = JObj fields /\ items_lookup "system" fields = Some bad /\
        forall system, bad <> JObj system) ->
  exists e,
    perform_health_check repr (Ok timestamp) host config
    = (JObj [("system_status", JStr "❌ ERROR"); ("error", JStr (exn_text e))],
       [Logged "error" ("Health check failed: " ++ exn_text e);
        Printed ("❌ Health check failed: " ++ exn_text e)]).
Proof.
  intros [Hnot | (fields & bad & -> & Hbad & Hnot)];
    unfold perform_health_check.
  - destruct config as [| | | | | fields];
      try (eexists; reflexivity).
    exfalso. apply (Hnot fields). reflexivity.
  - cbn [dict_get]. rewrite Hbad.
    destruct bad as [| | | | | system]; try (eexists; reflexivity).
    exfalso. apply (Hnot system). reflexivity.
Qed.

Lemma health_check_rejects_malformed_config_witness :
  exists e,
    perform_health_check plain_repr (Ok "2025-01-06 09:15:00")
      (Raise clock_failure) (JArr [])
    = (JObj [("system_status", JStr "❌ ERROR"); ("error", JStr (exn_text e))],
       [Logged "error" ("Health check failed: " ++ exn_text e);
        Printed ("❌ Health check failed: " ++ exn_text e)]).
Proof.
  apply (health_check_rejects_malformed_config plain_repr "2025-01-06 09:15:00"
           (Raise clock_failure) (JArr [])).
  left. intros fields. discriminate.
Defined.

(** * Further properties of main.py: the symbol update *)

(** X20.  [update_symbols] saves and reports only a non-empty list: with an
    empty list nothing is saved and nothing more is logged; with a
    non-empty one the list is saved and its length reported; and when
    saving raises, the failure is logged instead of the length. *)
Theorem update_symbols_saves_non_empty_lists (env : Env) (w w1 : World)
    (symbols : list string) :
  fetch_all_us_symbols env (add_log "🔁 تحديث رموز السوق..." w)
    = (Ok symbols, w1) ->
  (symbols = [] -> update_symbols env w = (Ok tt, w1)) /\
  (symbols <> [] ->
     forall w2, save_symbols_to_csv env symbols w1 = (Ok tt, w2) ->
     update_symbols env w
       = (Ok tt, add_log ("✅ تم تحديث " ++ pretty (length symbols)
                          ++ " رمز سوق.") w2)) /\
  (symbols <> [] ->
     forall e w2, save_symbols_to_csv env symbols w1 = (Raise e, w2) ->
     update_symbols env w
       = (Ok tt, add_log ("❌ فشل تحديث الرموز: " ++ exn_text e) w2)).
Proof.
  intros Hfetch.
  split; [| split].
  - intros ->. unfold update_symbols, bind at 1. cbn [log].
    rewrite try_except_bind, Hfetch. reflexivity.
  - intros Hne w2 Hsave. destruct symbols as [| s rest]; [contradiction |].
    unfold update_symbols, bind at 1. cbn [log].
    rewrite try_except_bind, Hfetch. cbv beta iota.
    rewrite try_except_bind, Hsave. reflexivity.
  - intros Hne e w2 Hsave. destruct symbols as [| s rest]; [contradiction |].
    unfold update_symbols, bind at 1. cbn [log].
    rewrite try_except_bind, Hfetch. cbv beta iota.
    rewrite try_except_bind, Hsave. reflexivity.
Qed.

Lemma update_symbols_saves_non_empty_lists_witness :
  update_symbols (symbols_env (ret []) (fun _ => raise disk_full)) empty_world
    = (Ok tt, add_log "🔁 تحديث رموز السوق..." empty_world) /\
  update_symbols (symbols_env (ret ["AAPL"; "MSFT"]) (fun _ => raise disk_full))
    empty_world
    = (Ok tt,
       add_log ("❌ فشل تحديث الرموز: " ++ "No space left on device")
         (add_log "🔁 تحديث رموز السوق..." empty_world)).
Proof.
  split.
  - apply (proj1 (update_symbols_saves_non_empty_lists
                    (symbols_env (ret []) (fun _ => raise disk_full))
                    empty_world _ [] eq_refl)).
    reflexivity.
  - apply (proj2 (proj2 (update_symbols_saves_non_empty_lists
                    (symbols_env (ret ["AAPL"; "MSFT"]) (fun _ => raise disk_full))
                    empty_world _ ["AAPL"; "MSFT"] eq_refl))
             ltac:(discriminate) disk_full).
    reflexivity.
Defined.
